(** * The catalog and checkout Lambda function, embedded in Rocq

    Source: [infrastructure/.aws-sam/build/CatalogFunction/lambda_function.py].

    The handlers are translated one by one as functions of a state-and-exception
    monad over a [world] that holds the DynamoDB table, the SSM parameter store,
    the two module-level credential variables, the log of calls made on the
    relational connection, and the outcomes the providers are going to give.

    Python values are a small universe ([value]): what [json.loads] yields,
    and [Decimal]. Python floats are IEEE-754 binary64 numbers, computed with
    the Standard Library's [SpecFloat]; arithmetic is modelled on the numbers,
    strings and lists that [json.loads] yields. [json.loads] itself and
    [Decimal] on text are parameters ([PyLib]). The text of a response body is
    kept as the JSON document that [json.dumps] renders. Calls to [logger]
    only format and emit text; they are left out, except where formatting the
    message reads a local variable that may not be bound. The [context]
    argument of the handlers is never read and is left out. *)

From Stdlib Require Import ZArith QArith Ascii String List Floats.SpecFloat Lia.
From stdpp Require Import gmap strings.

#[local] Set Warnings "-register-all".

Open Scope string_scope.
Open Scope Z_scope.

(** ** Numbers *)

(** [decimal.Decimal]: sign, coefficient and exponent, or a special value. *)
Inductive decimal :=
| DecFinite (neg : bool) (coef : N) (exp : Z)
| DecInf (neg : bool)
| DecNaN.

Module Float64.

Definition prec : Z := 53.
Definition emax : Z := 1024.

Definition mul : spec_float -> spec_float -> spec_float := SFmul prec emax.
Definition add : spec_float -> spec_float -> spec_float := SFadd prec emax.
Definition div : spec_float -> spec_float -> spec_float := SFdiv prec emax.

(** The binary64 number nearest to an integer (ties to even); an infinity
    when the integer is out of range. *)
Definition of_Z (z : Z) : spec_float := binary_normalize prec emax z 0 false.

Definition is_finite (f : spec_float) : bool :=
  match f with
  | S754_zero _ | S754_finite _ _ _ => true
  | _ => false
  end.

Definition eqb (f g : spec_float) : bool :=
  match f, g with
  | S754_zero a, S754_zero b => Bool.eqb a b
  | S754_infinity a, S754_infinity b => Bool.eqb a b
  | S754_nan, S754_nan => true
  | S754_finite a m e, S754_finite b n k => Bool.eqb a b && Pos.eqb m n && Z.eqb e k
  | _, _ => false
  end.

(** The rational a finite float stands for. *)
Definition to_Q (f : spec_float) : option Q :=
  match f with
  | S754_zero _ => Some (0 # 1)
  | S754_finite s m e =>
      let n := if s then Z.neg m else Z.pos m in
      Some (if 0 <=? e then (n * 2 ^ e) # 1 else n # Z.to_pos (2 ^ (- e)))
  | _ => None
  end.

(** [float(d)] for a [Decimal] d: the nearest binary64 number. *)
Definition of_decimal (d : decimal) : spec_float :=
  match d with
  | DecNaN => S754_nan
  | DecInf s => S754_infinity s
  | DecFinite s N0 _ => S754_zero s
  | DecFinite s (Npos c) e =>
      if 0 <=? e
      then of_Z ((if s then Z.neg c else Z.pos c) * 10 ^ e)
      else div (S754_finite s c 0) (S754_finite false (Z.to_pos (10 ^ (- e))) 0)
  end.

End Float64.


(** ** Python values *)

Inductive value :=
| VNone
| VBool (b : bool)
| VInt (z : Z)
| VFloat (f : spec_float)
| VStr (s : string)
| VDecimal (d : decimal)
| VList (l : list value)
| VDict (d : list (string * value)).

(** A [dict] with string keys, in insertion order. *)
Abbreviation dict := (list (string * value)).

Definition type_name (v : value) : string :=
  match v with
  | VNone => "NoneType"
  | VBool _ => "bool"
  | VInt _ => "int"
  | VFloat _ => "float"
  | VStr _ => "str"
  | VDecimal _ => "decimal.Decimal"
  | VList _ => "list"
  | VDict _ => "dict"
  end.



(** ** Exceptions *)

Inductive exn :=
| KeyError (key : string)
| TypeError (msg : string)
| AttributeError (msg : string)
| UnboundLocalError (msg : string)
| OverflowError (msg : string)
| JSONDecodeError (msg : string)
| InvalidOperation (msg : string)
| ParamValidationError (msg : string)
| ClientError (msg : string)
| MySQLError (msg : string).

(** [str(e)]. *)
Definition exn_str (e : exn) : string :=
  match e with
  | KeyError k => "'" +:+ k +:+ "'"
  | TypeError m | AttributeError m | UnboundLocalError m | OverflowError m
  | JSONDecodeError m | InvalidOperation m | ParamValidationError m
  | ClientError m | MySQLError m => m
  end.

Inductive result (A : Type) :=
| Ok (a : A)
| Raise (e : exn).
Arguments Ok {A} a.
Arguments Raise {A} e.

#[global] Instance result_ret : MRet result := fun _ a => Ok a.
#[global] Instance result_bind : MBind result :=
  fun _ _ f r => match r with Ok a => f a | Raise e => Raise e end.

(** ** Operations of the language *)

Fixpoint dict_get (d : dict) (k : string) : option value :=
  match d with
  | [] => None
  | (k', v) :: d' => if String.eqb k' k then Some v else dict_get d' k
  end.

(** [d[k] = v]: replaces the value in place, or appends a new entry. *)
Fixpoint dict_set (d : dict) (k : string) (v : value) : dict :=
  match d with
  | [] => [(k, v)]
  | (k', v') :: d' =>
      if String.eqb k' k then (k', v) :: d' else (k', v') :: dict_set d' k v
  end.

(** [bool(v)]. *)
Definition truthy (v : value) : bool :=
  match v with
  | VNone => false
  | VBool b => b
  | VInt z => negb (z =? 0)
  | VFloat (S754_zero _) => false
  | VFloat _ => true
  | VStr s => negb (String.eqb s EmptyString)
  | VDecimal (DecFinite _ N0 _) => false
  | VDecimal _ => true
  | VList l => match l with [] => false | _ => true end
  | VDict d => match d with [] => false | _ => true end
  end.

(** [v == s] for a string literal s. *)
Definition eq_str (v : value) (s : string) : bool :=
  match v with
  | VStr s' => String.eqb s' s
  | _ => false
  end.

(** [v[k]] for a string key k. *)
Definition py_getitem (v : value) (k : string) : result value :=
  match v with
  | VDict d =>
      match dict_get d k with
      | Some x => Ok x
      | None => Raise (KeyError k)
      end
  | VList _ => Raise (TypeError "list indices must be integers or slices, not str")
  | VStr _ => Raise (TypeError "string indices must be integers, not 'str'")
  | _ => Raise (TypeError ("'" +:+ type_name v +:+ "' object is not subscriptable"))
  end.

(** [v.get(k, default)]. *)
Definition py_get (v : value) (k : string) (default : value) : result value :=
  match v with
  | VDict d => Ok (from_option id default (dict_get d k))
  | _ => Raise (AttributeError ("'" +:+ type_name v +:+ "' object has no attribute 'get'"))
  end.

(** [k in v] for a string k. *)
Definition py_contains (k : string) (v : value) : result bool :=
  match v with
  | VDict d => Ok (bool_decide (is_Some (dict_get d k)))
  | VList l => Ok (existsb (fun x => eq_str x k) l)
  | VStr s => Ok (bool_decide (is_Some (String.index 0 k s)))
  | _ => Raise (TypeError ("argument of type '" +:+ type_name v +:+ "' is not iterable"))
  end.

(** [v[k] = x]. *)
Definition py_setitem (v : value) (k : string) (x : value) : result value :=
  match v with
  | VDict d => Ok (VDict (dict_set d k x))
  | VList _ => Raise (TypeError "list indices must be integers or slices, not str")
  | _ => Raise (TypeError ("'" +:+ type_name v +:+ "' object does not support item assignment"))
  end.

(** [v.startswith(p)]. *)
Definition py_startswith (v : value) (p : string) : result bool :=
  match v with
  | VStr s => Ok (String.prefix p s)
  | _ => Raise (AttributeError ("'" +:+ type_name v +:+ "' object has no attribute 'startswith'"))
  end.

Fixpoint chars (s : string) : list value :=
  match s with
  | EmptyString => []
  | String c s' => VStr (String c EmptyString) :: chars s'
  end.

(** The elements a [for] loop or a comprehension goes through. *)
Definition py_iter (v : value) : result (list value) :=
  match v with
  | VList l => Ok l
  | VDict d => Ok (map (fun kv => VStr (fst kv)) d)
  | VStr s => Ok (chars s)
  | _ => Raise (TypeError ("'" +:+ type_name v +:+ "' object is not iterable"))
  end.

(** *** Arithmetic *)

Inductive number :=
| NInt (z : Z)
| NFloat (f : spec_float).

(** [bool] is a subclass of [int]. *)
Definition as_number (v : value) : option number :=
  match v with
  | VBool b => Some (NInt (if b then 1 else 0))
  | VInt z => Some (NInt z)
  | VFloat f => Some (NFloat f)
  | _ => None
  end.

Definition as_int (v : value) : option Z :=
  match as_number v with
  | Some (NInt z) => Some z
  | _ => None
  end.

(** [float(z)] for an [int] z. *)
Definition int_to_float (z : Z) : result spec_float :=
  match Float64.of_Z z with
  | S754_infinity _ => Raise (OverflowError "int too large to convert to float")
  | f => Ok f
  end.

Definition num_binop (fz : Z -> Z -> Z) (ff : spec_float -> spec_float -> spec_float)
    (a b : number) : result value :=
  match a, b with
  | NInt x, NInt y => Ok (VInt (fz x y))
  | NInt x, NFloat g => f ← int_to_float x; Ok (VFloat (ff f g))
  | NFloat f, NInt y => g ← int_to_float y; Ok (VFloat (ff f g))
  | NFloat f, NFloat g => Ok (VFloat (ff f g))
  end.

Fixpoint str_repeat (n : nat) (s : string) : string :=
  match n with
  | O => EmptyString
  | S n' => s +:+ str_repeat n' s
  end.

Fixpoint list_repeat {A} (n : nat) (l : list A) : list A :=
  match n with
  | O => []
  | S n' => l ++ list_repeat n' l
  end.

Definition unsupported (op : string) (a b : value) : exn :=
  TypeError ("unsupported operand type(s) for " +:+ op +:+ ": '" +:+ type_name a
             +:+ "' and '" +:+ type_name b +:+ "'").

Definition not_int_multiplier (b : value) : exn :=
  TypeError ("can't multiply sequence by non-int of type '" +:+ type_name b +:+ "'").

(** [a * b]: numbers multiply, a sequence times an [int] repeats. *)
Definition py_mul (a b : value) : result value :=
  match as_number a, as_number b with
  | Some x, Some y => num_binop Z.mul Float64.mul x y
  | _, _ =>
      match a, b with
      | VStr s, _ =>
          match as_int b with
          | Some n => Ok (VStr (str_repeat (Z.to_nat n) s))
          | None => Raise (not_int_multiplier b)
          end
      | VList l, _ =>
          match as_int b with
          | Some n => Ok (VList (list_repeat (Z.to_nat n) l))
          | None => Raise (not_int_multiplier b)
          end
      | _, VStr s =>
          match as_int a with
          | Some n => Ok (VStr (str_repeat (Z.to_nat n) s))
          | None => Raise (not_int_multiplier a)
          end
      | _, VList l =>
          match as_int a with
          | Some n => Ok (VList (list_repeat (Z.to_nat n) l))
          | None => Raise (not_int_multiplier a)
          end
      | _, _ => Raise (unsupported "*" a b)
      end
  end.

(** [a + b]: numbers add, two strings or two lists concatenate. *)
Definition py_add (a b : value) : result value :=
  match as_number a, as_number b with
  | Some x, Some y => num_binop Z.add Float64.add x y
  | _, _ =>
      match a, b with
      | VStr s, VStr t => Ok (VStr (s +:+ t))
      | VList l, VList m => Ok (VList (l ++ m))
      | _, _ => Raise (unsupported "+" a b)
      end
  end.

(** [sum(l)]: the elements added one after the other, from the integer 0. *)
Fixpoint sum_from (acc : value) (l : list value) : result value :=
  match l with
  | [] => Ok acc
  | x :: l' => acc' ← py_add acc x; sum_from acc' l'
  end.

Definition py_sum (l : list value) : result value := sum_from (VInt 0) l.

(** ** Conversions between numbers

    [str] of a float is its shortest representation: the fewest significant
    digits (at most 17) that read back as the same float and, among those, the
    decimal nearest to it. *)

Module Repr.

(** A positive rational [num / den] and a power of ten. *)
Definition scale (num den : Z) (p : Z) : Z * Z :=
  if 0 <=? p then (num * 10 ^ p, den) else (num, den * 10 ^ (- p)).

(** [v < 10 ^ k] for [v = num / den]. *)
Definition below_pow10 (num den : Z) (k : Z) : bool :=
  let '(n, d) := scale num den (- k) in n <? d.

(** The position of the decimal point: the least k with [v < 10 ^ k]. *)
Definition decpt (num den : Z) : Z :=
  from_option id 310
    (find (below_pow10 num den) (map (fun i => Z.of_nat i - 324) (seq 0 634))).

(** The nearest decimal with n significant digits that reads back as f. *)
Definition candidate (f : spec_float) (s : bool) (num den k : Z) (n : Z)
    : option (Z * Z) :=
  let '(a, b) := scale num den (n - k) in
  let lo := a / b in
  let r := a mod b in
  let hi := lo + 1 in
  let back c := Float64.eqb (Float64.of_decimal (DecFinite s (Z.to_N c) (k - n))) f in
  let lo_first := (2 * r <? b) || ((2 * r =? b) && Z.even lo) in
  let '(c1, c2) := if lo_first then (lo, hi) else (hi, lo) in
  if back c1 then Some (c1, k - n)
  else if back c2 then Some (c2, k - n)
  else None.

Fixpoint shortest (f : spec_float) (s : bool) (num den k : Z) (n : Z) (fuel : nat)
    : option (Z * Z) :=
  match fuel with
  | O => None
  | S fuel' =>
      match candidate f s num den k n with
      | Some c => Some c
      | None => shortest f s num den k (n + 1) fuel'
      end
  end.

(** Trailing zeros are not digits of the representation. *)
Fixpoint strip_zeros (fuel : nat) (c e : Z) : Z * Z :=
  match fuel with
  | O => (c, e)
  | S fuel' => if (c mod 10 =? 0) && (0 <? c) then strip_zeros fuel' (c / 10) (e + 1) else (c, e)
  end.

Fixpoint digits10 (fuel : nat) (c : Z) : Z :=
  match fuel with
  | O => 1
  | S fuel' => if c <? 10 then 1 else 1 + digits10 fuel' (c / 10)
  end.

(** The [Decimal] read from the text of a float: fixed notation when the
    decimal point falls within [-4 < decpt <= 16], with ".0" after a whole
    number; scientific notation otherwise. *)
Definition layout (s : bool) (c e : Z) : decimal :=
  let point := e + digits10 20 c in
  if (-4 <? point) && (point <=? 16) && (0 <=? e)
  then DecFinite s (Z.to_N (c * 10 ^ (e + 1))) (-1)
  else DecFinite s (Z.to_N c) e.

(** [Decimal(str(f))] for a float f; no result for a [spec_float] that is
    not a binary64 number. *)
Definition decimal_of_float (f : spec_float) : option decimal :=
  match f with
  | S754_nan => Some DecNaN
  | S754_infinity s => Some (DecInf s)
  | S754_zero s => Some (DecFinite s 0 (-1))
  | S754_finite s m e =>
      let '(num, den) := if 0 <=? e then (Z.pos m * 2 ^ e, 1) else (Z.pos m, 2 ^ (- e)) in
      match shortest f s num den (decpt num den) 1 17 with
      | Some (c, x) =>
          let '(c', x') := strip_zeros 20 c x in
          let d := layout s c' x' in
          if Float64.eqb (Float64.of_decimal d) f then Some d else None
      | None => None
      end
  end.

End Repr.

(** ** The standard library of the language

    [json.loads] and [Decimal] on text are taken as given: a decoder from text
    to values and a reader of decimal literals. What [json.loads] returns is
    JSON data ([is_json]): it holds no [Decimal]. *)


Class PyLib := {
  json_loads : string -> result value;
  Decimal_of_string : string -> option decimal;
}.

Definition conversion_syntax : exn :=
  InvalidOperation "[<class 'decimal.ConversionSyntax'>]".

Section Library.

Context {lib : PyLib}.

(** [json.loads(v)]. *)
Definition py_json_loads (v : value) : result value :=
  match v with
  | VStr s => json_loads s
  | _ => Raise (TypeError ("the JSON object must be str, bytes or bytearray, not "
                           +:+ type_name v))
  end.

(** [Decimal(str(v))]. *)
Definition Decimal_of_str (v : value) : result decimal :=
  match v with
  | VInt z => Ok (DecFinite (z <? 0) (Z.to_N (Z.abs z)) 0)
  | VFloat f =>
      match Repr.decimal_of_float f with
      | Some d => Ok d
      | None => Raise conversion_syntax
      end
  | VStr s =>
      match Decimal_of_string s with
      | Some d => Ok d
      | None => Raise conversion_syntax
      end
  | VDecimal d => Ok d
  | VNone | VBool _ | VList _ | VDict _ => Raise conversion_syntax
  end.

End Library.

(** [json.dumps(v)]: the document that is written out. A [Decimal] has no JSON
    form. *)
Fixpoint json_plain (v : value) : result value :=
  match v with
  | VDecimal _ => Raise (TypeError "Object of type Decimal is not JSON serializable")
  | VList l =>
      l' ← (fix each (l : list value) : result (list value) :=
              match l with
              | [] => Ok []
              | x :: r => y ← json_plain x; r' ← each r; Ok (y :: r')
              end) l;
      Ok (VList l')
  | VDict d =>
      d' ← (fix each (d : dict) : result dict :=
              match d with
              | [] => Ok []
              | (k, x) :: r => y ← json_plain x; r' ← each r; Ok ((k, y) :: r')
              end) d;
      Ok (VDict d')
  | _ => Ok v
  end.

(** [json.dumps(v, default=f)]: what has no JSON form is replaced by [f] of
    it, which is written out in its place. *)
Fixpoint json_dumps (default : value -> result value) (v : value) : result value :=
  match v with
  | VDecimal _ => x ← default v; json_plain x
  | VList l =>
      l' ← (fix each (l : list value) : result (list value) :=
              match l with
              | [] => Ok []
              | x :: r => y ← json_dumps default x; r' ← each r; Ok (y :: r')
              end) l;
      Ok (VList l')
  | VDict d =>
      d' ← (fix each (d : dict) : result dict :=
              match d with
              | [] => Ok []
              | (k, x) :: r => y ← json_dumps default x; r' ← each r; Ok ((k, y) :: r')
              end) d;
      Ok (VDict d')
  | _ => Ok v
  end.

(** ** The world outside the function *)

(** A call made on the relational connection. *)
Inductive rds_call :=
| RdsConnect (user password : value)
| RdsExecute (sql : string) (args : list value)
| RdsCommit
| RdsClose.

Record world := World {
  table : gmap string dict;            (* the DynamoDB table, by product_id *)
  ssm_parameters : gmap string string; (* the SSM parameter store *)
  cached_rds_user : value;             (* _cached_rds_user *)
  cached_rds_password : value;         (* _cached_rds_password *)
  ssm_calls : list string;             (* names asked of SSM, in order *)
  rds_calls : list rds_call;           (* calls that went through, in order *)
  rds_autoincrement : Z;               (* the identifier of the next inserted row *)
  outcomes : list (option string);     (* what the next provider calls answer:
                                          [Some msg] is a fault with that text *)
}.

Definition set_table (t : gmap string dict) (w : world) : world :=
  World t (ssm_parameters w) (cached_rds_user w) (cached_rds_password w)
        (ssm_calls w) (rds_calls w) (rds_autoincrement w) (outcomes w).
Definition set_cached_rds_user (v : value) (w : world) : world :=
  World (table w) (ssm_parameters w) v (cached_rds_password w)
        (ssm_calls w) (rds_calls w) (rds_autoincrement w) (outcomes w).
Definition set_cached_rds_password (v : value) (w : world) : world :=
  World (table w) (ssm_parameters w) (cached_rds_user w) v
        (ssm_calls w) (rds_calls w) (rds_autoincrement w) (outcomes w).
Definition set_ssm_calls (l : list string) (w : world) : world :=
  World (table w) (ssm_parameters w) (cached_rds_user w) (cached_rds_password w)
        l (rds_calls w) (rds_autoincrement w) (outcomes w).
Definition set_rds_calls (l : list rds_call) (w : world) : world :=
  World (table w) (ssm_parameters w) (cached_rds_user w) (cached_rds_password w)
        (ssm_calls w) l (rds_autoincrement w) (outcomes w).
Definition set_rds_autoincrement (n : Z) (w : world) : world :=
  World (table w) (ssm_parameters w) (cached_rds_user w) (cached_rds_password w)
        (ssm_calls w) (rds_calls w) n (outcomes w).
Definition set_outcomes (o : list (option string)) (w : world) : world :=
  World (table w) (ssm_parameters w) (cached_rds_user w) (cached_rds_password w)
        (ssm_calls w) (rds_calls w) (rds_autoincrement w) o.

(** *** Computations: a state that is threaded, an exception that may be raised *)

Definition M (A : Type) : Type := world -> result A * world.

#[global] Instance M_ret : MRet M := fun _ a w => (Ok a, w).
#[global] Instance M_bind : MBind M :=
  fun _ _ f m w =>
    match m w with
    | (Ok a, w') => f a w'
    | (Raise e, w') => (Raise e, w')
    end.

Definition raise {A} (e : exn) : M A := fun w => (Raise e, w).
Definition lift {A} (r : result A) : M A := fun w => (r, w).
Definition gets {A} (f : world -> A) : M A := fun w => (Ok (f w), w).
Definition modify (f : world -> world) : M unit := fun w => (Ok tt, f w).

(** [try: body  except Exception as e: handler e]. *)
Definition try_except {A} (body : M A) (handler : exn -> M A) : M A :=
  fun w =>
    match body w with
    | (Ok a, w') => (Ok a, w')
    | (Raise e, w') => handler e w'
    end.

(** [try: body  finally: final]. *)
Definition try_finally {A} (body : M A) (final : M unit) : M A :=
  fun w =>
    let '(r, w') := body w in
    match final w' with
    | (Ok _, w'') => (r, w'')
    | (Raise e, w'') => (Raise e, w'')
    end.

(** A call that leaves the process: the provider answers, or faults. *)
Definition answered (w : world) : world := set_outcomes (tail (outcomes w)) w.

Definition provider_call (fault : string -> exn) : M unit :=
  fun w =>
    match head (outcomes w) with
    | Some (Some msg) => (Raise (fault msg), answered w)
    | _ => (Ok tt, answered w)
    end.

(** *** DynamoDB: one table, whose key is the string attribute [product_id] *)

Definition key_mismatch (operation : string) : exn :=
  ClientError ("An error occurred (ValidationException) when calling the " +:+ operation
               +:+ " operation: The provided key element does not match the schema").
Definition key_missing : exn :=
  ClientError "An error occurred (ValidationException) when calling the PutItem operation: One or more parameter values were invalid: Missing the key product_id in the item".

(** [table.scan()]. *)
Definition table_scan : M value :=
  _ ← provider_call ClientError;
  t ← gets table;
  mret (VDict [("Items", VList (map (fun kv => VDict (snd kv)) (map_to_list t)))]).

(** [table.get_item(Key={'product_id': product_id})]. *)
Definition table_get_item (product_id : value) : M value :=
  _ ← provider_call ClientError;
  match product_id with
  | VStr k =>
      t ← gets table;
      mret (VDict (match t !! k with
                   | Some item => [("Item", VDict item)]
                   | None => []
                   end))
  | _ => raise (key_mismatch "GetItem")
  end.

(** [table.put_item(Item=item)]: writes the item under its key, over any item
    that was there. *)
Definition table_put_item (item : value) : M unit :=
  match item with
  | VDict d =>
      _ ← provider_call ClientError;
      match dict_get d "product_id" with
      | Some (VStr k) => modify (fun w => set_table (<[k := d]> (table w)) w)
      | Some _ => raise (key_mismatch "PutItem")
      | None => raise key_missing
      end
  | _ => raise (ParamValidationError
                  ("Parameter validation failed: Invalid type for parameter Item, type: <class '"
                   +:+ type_name item +:+ "'>, valid types: <class 'dict'>"))
  end.

(** [table.update_item(Key={'product_id': product_id},
      UpdateExpression="SET #n=:n, price=:p, stock=:s", ...)]: sets the three
    attributes of the item, which is created when there is none. *)
Definition table_update_item (product_id n p s : value) : M unit :=
  _ ← provider_call ClientError;
  match product_id with
  | VStr k =>
      modify (fun w =>
        let item := from_option id [("product_id", VStr k)] (table w !! k) in
        let item' := dict_set (dict_set (dict_set item "name" n) "price" p) "stock" s in
        set_table (<[k := item']> (table w)) w)
  | _ => raise (key_mismatch "UpdateItem")
  end.

(** [table.delete_item(Key={'product_id': product_id})]. *)
Definition table_delete_item (product_id : value) : M unit :=
  _ ← provider_call ClientError;
  match product_id with
  | VStr k => modify (fun w => set_table (delete k (table w)) w)
  | _ => raise (key_mismatch "DeleteItem")
  end.

(** *** SSM *)

(** [ssm.get_parameter(Name=name, WithDecryption=True)]. *)
Definition ssm_get_parameter (name : string) : M value :=
  _ ← modify (fun w => set_ssm_calls (ssm_calls w ++ [name]) w);
  _ ← provider_call ClientError;
  params ← gets ssm_parameters;
  match params !! name with
  | Some v => mret (VDict [("Parameter", VDict [("Name", VStr name); ("Value", VStr v)])])
  | None => raise (ClientError
                     "An error occurred (ParameterNotFound) when calling the GetParameter operation: ")
  end.

(** *** The relational store, through pymysql *)

(** [pymysql.connect(...)]. *)
Definition pymysql_connect (user password : value) : M unit :=
  _ ← provider_call MySQLError;
  modify (fun w => set_rds_calls (rds_calls w ++ [RdsConnect user password]) w).

(** [cursor.execute(sql, args)], then [cursor.lastrowid]. *)
Definition cursor_execute (sql : string) (args : list value) : M Z :=
  _ ← provider_call MySQLError;
  lastrowid ← gets rds_autoincrement;
  _ ← modify (fun w => set_rds_autoincrement (lastrowid + 1)
                         (set_rds_calls (rds_calls w ++ [RdsExecute sql args]) w));
  mret lastrowid.

(** [conn.commit()]. *)
Definition conn_commit : M unit :=
  _ ← provider_call MySQLError;
  modify (fun w => set_rds_calls (rds_calls w ++ [RdsCommit]) w).

(** [conn.close()]. *)
Definition conn_close : M unit :=
  modify (fun w => set_rds_calls (rds_calls w ++ [RdsClose]) w).

(** ** The function *)

Record response := Response {
  statusCode : Z;
  body : value;
}.

(** [{'error': summary, 'details': str(e)}]. *)
Definition error_body (summary : string) (e : exn) : value :=
  VDict [("error", VStr summary); ("details", VStr (exn_str e))].

Definition message_body (text : string) : value :=
  VDict [("message", VStr text)].

(** [event.get(k, default)]. *)
Definition event_get (event : dict) (k : string) (default : value) : value :=
  from_option id default (dict_get event k).

(** [[f(x) for x in l]]. *)
Fixpoint comprehension {A B} (f : A -> result B) (l : list A) : result (list B) :=
  match l with
  | [] => Ok []
  | x :: r => y ← f x; r' ← comprehension f r; Ok (y :: r')
  end.

(** [for x in l: f(x)]. *)
Fixpoint for_each {A} (f : A -> M unit) (l : list A) : M unit :=
  match l with
  | [] => mret tt
  | x :: r => _ ← f x; for_each f r
  end.

Definition unbound_local (name : string) : exn :=
  UnboundLocalError ("cannot access local variable '" +:+ name
                     +:+ "' where it is not associated with a value").

(** *** Credentials *)

Definition get_ssm_parameter (name : string) : M value :=
  response ← ssm_get_parameter name;
  parameter ← lift (py_getitem response "Parameter");
  lift (py_getitem parameter "Value").

Definition get_db_credentials : M (value * value) :=
  user ← gets cached_rds_user;
  _ ← (if negb (truthy user)
       then v ← get_ssm_parameter "/ubuntucrafts/db_username";
            modify (set_cached_rds_user v)
       else mret tt);
  password ← gets cached_rds_password;
  _ ← (if negb (truthy password)
       then v ← get_ssm_parameter "/ubuntucrafts/db_password";
            modify (set_cached_rds_password v)
       else mret tt);
  user ← gets cached_rds_user;
  password ← gets cached_rds_password;
  mret (user, password).

(** The [except pymysql.MySQLError] clause logs and raises again. *)
Definition get_rds_connection : M unit :=
  try_except
    (creds ← get_db_credentials;
     pymysql_connect (fst creds) (snd creds))
    (fun e => raise e).

(** *** Serialization *)

Definition decimal_default (obj : value) : result value :=
  match obj with
  | VDecimal d => Ok (VFloat (Float64.of_decimal d))
  | _ => Raise (TypeError EmptyString)
  end.

Section Handlers.

Context {lib : PyLib}.

(** Each handler is a [try] block and its [except Exception] clause; the
    block is named after the handler. *)

(** *** Products *)

Definition list_products_try (event : dict) : M response :=
  response ← table_scan;
  items ← lift (py_get response "Items" (VList []));
  text ← lift (json_dumps decimal_default items);
  mret (Response 200 text).

Definition list_products (event : dict) : M response :=
  try_except (list_products_try event)
    (fun e => mret (Response 500 (error_body "Failed to list products" e))).

(** [product_id = event['pathParameters']['id']], the first statement of the
    [try] block of [get_product], [update_product] and [delete_product]. *)
Definition path_parameter_id (event : dict) : result value :=
  parameters ← py_getitem (VDict event) "pathParameters";
  py_getitem parameters "id".

Definition get_product_try (event : dict) : M response :=
  product_id ← lift (path_parameter_id event);
  response ← table_get_item product_id;
  item ← lift (py_get response "Item" VNone);
  if negb (truthy item)
  then mret (Response 404 (VDict [("error", VStr "Product not found")]))
  else text ← lift (json_dumps decimal_default item);
       mret (Response 200 text).

Definition get_product (event : dict) : M response :=
  try_except (get_product_try event)
    (fun e => mret (Response 500 (error_body "Failed to get product" e))).

(** [if k in body: body[k] = Decimal(str(body[k]))]. *)
Definition coerce_field (k : string) (body : value) : result value :=
  present ← py_contains k body;
  if (present : bool)
  then v ← py_getitem body k;
       d ← Decimal_of_str v;
       py_setitem body k (VDecimal d)
  else Ok body.

Definition create_product_try (event : dict) : M response :=
  body ← lift (py_json_loads (event_get event "body" (VStr "{}")));
  body ← lift (coerce_field "price" body);
  body ← lift (coerce_field "stock" body);
  _ ← table_put_item body;
  mret (Response 200 (message_body "Product created successfully")).

Definition create_product (event : dict) : M response :=
  try_except (create_product_try event)
    (fun e => mret (Response 500 (error_body "Failed to create product" e))).

(** The [except] clause of [update_product] and of [delete_product] writes
    [product_id] into its log line before it builds the response; the name is
    bound only when the first statement of the [try] block went through. *)
Definition except_with_product_id (summary : string) (product_id : option value)
    (e : exn) : M response :=
  match product_id with
  | Some _ => mret (Response 500 (error_body summary e))
  | None => raise (unbound_local "product_id")
  end.

(** The [try] block of [update_product] after its first statement. *)
Definition update_product_try (product_id : value) (event : dict) : M response :=
  body ← lift (py_json_loads (event_get event "body" (VStr "{}")));
  p ← lift (py_get body "price" (VInt 0));
  price ← lift (Decimal_of_str p);
  s ← lift (py_get body "stock" (VInt 0));
  stock ← lift (Decimal_of_str s);
  name ← lift (py_get body "name" (VStr EmptyString));
  _ ← table_update_item product_id name (VDecimal price) (VDecimal stock);
  mret (Response 200 (message_body "Product updated successfully")).

Definition update_product (event : dict) : M response :=
  match path_parameter_id event with
  | Raise e => except_with_product_id "Failed to update product" None e
  | Ok product_id =>
      try_except (update_product_try product_id event)
        (except_with_product_id "Failed to update product" (Some product_id))
  end.

(** The [try] block of [delete_product] after its first statement. *)
Definition delete_product_try (product_id : value) (event : dict) : M response :=
  _ ← table_delete_item product_id;
  mret (Response 200 (message_body "Product deleted successfully")).

Definition delete_product (event : dict) : M response :=
  match path_parameter_id event with
  | Raise e => except_with_product_id "Failed to delete product" None e
  | Ok product_id =>
      try_except (delete_product_try product_id event)
        (except_with_product_id "Failed to delete product" (Some product_id))
  end.

(** *** Checkout *)

Definition insert_order : string :=
  "INSERT INTO Orders (user_id, total_amount) VALUES (%s, %s)".
Definition insert_order_item : string :=
  "INSERT INTO OrderItems (order_id, product_id, quantity, price) VALUES (%s, %s, %s, %s)".

(** [i['price'] * i['quantity']]. *)
Definition line_amount (i : value) : result value :=
  p ← py_getitem i "price";
  q ← py_getitem i "quantity";
  py_mul p q.

(** The body of the loop over the items. *)
Definition insert_item (order_id : Z) (item : value) : M unit :=
  product_id ← lift (py_getitem item "product_id");
  quantity ← lift (py_getitem item "quantity");
  price ← lift (py_getitem item "price");
  _ ← cursor_execute insert_order_item [VInt order_id; product_id; quantity; price];
  mret tt.

(** The inner [try] block, under which the connection is closed. *)
Definition place_order (user_id total_amount items : value) : M Z :=
  order_id ← cursor_execute insert_order [user_id; total_amount];
  lines ← lift (py_iter items);
  _ ← for_each (insert_item order_id) lines;
  _ ← conn_commit;
  mret order_id.

Definition checkout_try (event : dict) : M response :=
  body ← lift (py_json_loads (event_get event "body" (VStr "{}")));
  user_id ← lift (py_getitem body "user_id");
  items ← lift (py_getitem body "items");
  lines ← lift (py_iter items);
  amounts ← lift (comprehension line_amount lines);
  total_amount ← lift (py_sum amounts);
  _ ← get_rds_connection;
  order_id ← try_finally (place_order user_id total_amount items) conn_close;
  mret (Response 200 (VDict [("order_id", VInt order_id);
                             ("message", VStr "Checkout successful")])).

Definition checkout (event : dict) : M response :=
  try_except (checkout_try event)
    (fun e => mret (Response 500 (error_body "Checkout failed" e))).

(** *** Router *)

Definition invalid_route : response :=
  Response 400 (VDict [("error", VStr "Invalid route or method")]).

Definition lambda_handler (event : dict) : M response :=
  let path := event_get event "path" (VStr EmptyString) in
  let method := event_get event "httpMethod" (VStr EmptyString) in
  if eq_str path "/products" && eq_str method "GET" then list_products event
  else
    item_path ← lift (py_startswith path "/products/");
    if (item_path : bool) && eq_str method "GET" then get_product event
    else if eq_str path "/products" && eq_str method "POST" then create_product event
    else
      item_path ← lift (py_startswith path "/products/");
      if (item_path : bool) && eq_str method "PUT" then update_product event
      else
        item_path ← lift (py_startswith path "/products/");
        if (item_path : bool) && eq_str method "DELETE" then delete_product event
        else if eq_str path "/checkout" && eq_str method "POST" then checkout event
        else mret invalid_route.

End Handlers.

(** ** A decoder for the examples

    The statements below hold for any [PyLib]. The worked examples are run
    with this one: a reader of plain JSON documents (no escapes inside strings,
    no [NaN] or [Infinity]), whose numbers with a fraction or an exponent
    become the nearest float, and a reader of plain decimal literals. *)

Module Decoder.

Definition quote : ascii := ascii_of_nat 34.

Definition is_space (c : ascii) : bool :=
  let n := nat_of_ascii c in
  Nat.eqb n 32 || Nat.eqb n 9 || Nat.eqb n 10 || Nat.eqb n 13.

Definition digit (c : ascii) : option Z :=
  let n := nat_of_ascii c in
  if Nat.leb 48 n && Nat.leb n 57 then Some (Z.of_nat (n - 48)) else None.

Fixpoint skip_space (s : string) : string :=
  match s with
  | String c r => if is_space c then skip_space r else s
  | EmptyString => s
  end.

(** The digits at the head of s, as (their value after acc, how many, the
    rest). *)
Fixpoint digits (acc : Z) (count : Z) (s : string) : Z * Z * string :=
  match s with
  | String c r =>
      match digit c with
      | Some d => digits (10 * acc + d) (count + 1) r
      | None => (acc, count, s)
      end
  | EmptyString => (acc, count, s)
  end.

(** A literal: sign, coefficient, exponent, whether it is written as an
    integer, and the rest of the text. *)
Definition literal (s : string) : option (bool * Z * Z * bool * string) :=
  let '(neg, s) := match s with
                   | String "-" r => (true, r)
                   | _ => (false, s)
                   end in
  let '(int, n, r) := digits 0 0 s in
  let leading_zero := match s with String "0" _ => 1 <? n | _ => false end in
  if (n =? 0) || leading_zero then None
  else
    let '(coef, places, whole, r) :=
      match r with
      | String "." r1 =>
          let '(c, k, r2) := digits int 0 r1 in (c, k, false, r2)
      | _ => (int, 0, true, r)
      end in
    if negb whole && (places =? 0) then None
    else
      match r with
      | String c r1 =>
          if Ascii.eqb c "e" || Ascii.eqb c "E" then
            let '(eneg, r2) := match r1 with
                               | String "-" r2 => (true, r2)
                               | String "+" r2 => (false, r2)
                               | _ => (false, r1)
                               end in
            let '(e, k, r3) := digits 0 0 r2 in
            if k =? 0 then None
            else Some (neg, coef, (if eneg then - e else e) - places, false, r3)
          else Some (neg, coef, - places, whole, r)
      | EmptyString => Some (neg, coef, - places, whole, r)
      end.

Definition number (s : string) : option (value * string) :=
  match literal s with
  | Some (neg, coef, e, whole, r) =>
      Some (if whole then VInt (if neg then - coef else coef)
            else VFloat (Float64.of_decimal (DecFinite neg (Z.to_N coef) e)), r)
  | None => None
  end.

(** The characters up to the closing quote. *)
Fixpoint chars_to_quote (s : string) : option (string * string) :=
  match s with
  | String c r =>
      if Ascii.eqb c quote then Some (EmptyString, r)
      else if Ascii.eqb c "\" || Nat.ltb (nat_of_ascii c) 32 then None
      else match chars_to_quote r with
           | Some (t, r') => Some (String c t, r')
           | None => None
           end
  | EmptyString => None
  end.

Definition keyword (k : string) (v : value) (s : string) : option (value * string) :=
  if String.prefix k s
  then Some (v, String.substring (String.length k) (String.length s - String.length k) s)
  else None.

Fixpoint element (fuel : nat) (s : string) {struct fuel} : option (value * string) :=
  match fuel with
  | O => None
  | S fuel' =>
      match skip_space s with
      | String c r =>
          if Ascii.eqb c "{" then
            match skip_space r with
            | String "}" r' => Some (VDict [], r')
            | _ => match members fuel' [] r with
                   | Some (d, r') => Some (VDict d, r')
                   | None => None
                   end
            end
          else if Ascii.eqb c "[" then
            match skip_space r with
            | String "]" r' => Some (VList [], r')
            | _ => match elements fuel' r with
                   | Some (l, r') => Some (VList l, r')
                   | None => None
                   end
            end
          else if Ascii.eqb c quote then
            match chars_to_quote r with
            | Some (t, r') => Some (VStr t, r')
            | None => None
            end
          else if Ascii.eqb c "t" then keyword "true" (VBool true) (String c r)
          else if Ascii.eqb c "f" then keyword "false" (VBool false) (String c r)
          else if Ascii.eqb c "n" then keyword "null" VNone (String c r)
          else number (String c r)
      | EmptyString => None
      end
  end
with elements (fuel : nat) (s : string) {struct fuel} : option (list value * string) :=
  match fuel with
  | O => None
  | S fuel' =>
      match element fuel' s with
      | Some (v, r) =>
          match skip_space r with
          | String "," r' =>
              match elements fuel' r' with
              | Some (l, r'') => Some (v :: l, r'')
              | None => None
              end
          | String "]" r' => Some ([v], r')
          | _ => None
          end
      | None => None
      end
  end
with members (fuel : nat) (acc : dict) (s : string) {struct fuel} : option (dict * string) :=
  match fuel with
  | O => None
  | S fuel' =>
      match skip_space s with
      | String c r =>
          if Ascii.eqb c quote then
            match chars_to_quote r with
            | Some (k, r1) =>
                match skip_space r1 with
                | String ":" r2 =>
                    match element fuel' r2 with
                    | Some (v, r3) =>
                        match skip_space r3 with
                        | String "," r4 => members fuel' (dict_set acc k v) r4
                        | String "}" r4 => Some (dict_set acc k v, r4)
                        | _ => None
                        end
                    | None => None
                    end
                | _ => None
                end
            | None => None
            end
          else None
      | EmptyString => None
      end
  end.

Definition loads (s : string) : result value :=
  match element (S (String.length s)) s with
  | Some (v, r) =>
      match skip_space r with
      | EmptyString => Ok v
      | _ => Raise (JSONDecodeError "Extra data")
      end
  | None => Raise (JSONDecodeError "Expecting value")
  end.

Definition decimal_literal (s : string) : option decimal :=
  match literal s with
  | Some (neg, coef, e, _, EmptyString) => Some (DecFinite neg (Z.to_N coef) e)
  | _ => None
  end.

(** JSON text is written here with apostrophes where it has quotes. *)
Fixpoint text (s : string) : string :=
  match s with
  | String c r => String (if Ascii.eqb c "'" then quote else c) (text r)
  | EmptyString => EmptyString
  end.

End Decoder.

Definition example_lib : PyLib :=
  {| json_loads := Decoder.loads; Decimal_of_string := Decoder.decimal_literal |}.

(** ** What the statements speak of *)

(** A provider answers when the outcome it is about to give is not a fault. *)
Definition answers (w : world) : bool :=
  match head (outcomes w) with
  | Some (Some _) => false
  | _ => true
  end.

Definition faults_with (msg : string) (w : world) : Prop :=
  head (outcomes w) = Some (Some msg).

(** The six routes of [lambda_handler]. *)
Definition routed (path method : string) : bool :=
  String.eqb path "/products" && String.eqb method "GET"
  || String.prefix "/products/" path && String.eqb method "GET"
  || String.eqb path "/products" && String.eqb method "POST"
  || String.prefix "/products/" path && String.eqb method "PUT"
  || String.prefix "/products/" path && String.eqb method "DELETE"
  || String.eqb path "/checkout" && String.eqb method "POST".

(** A request as API Gateway hands it over. *)
Definition request (path method : string) (parameters body : value) : dict :=
  [("path", VStr path); ("httpMethod", VStr method);
   ("pathParameters", parameters); ("body", body)].

Definition with_id (id : string) : value := VDict [("id", VStr id)].

(** A fresh process: an empty table, the two credentials in SSM, nothing
    cached, no call made yet, providers that answer. *)
Definition fresh_world : world :=
  World ∅
        (<["/ubuntucrafts/db_username" := "admin"]>
           (<["/ubuntucrafts/db_password" := "secret"]> ∅))
        VNone VNone [] [] 1 [].

(** The [try] block of the handler that serves a request raised [e] and left
    the world [w']; [summary] is what that handler reports. *)
Inductive caught {lib : PyLib} (event : dict) (w w' : world) : string -> exn -> Prop :=
| caught_list e :
    list_products_try event w = (Raise e, w') ->
    caught event w w' "Failed to list products" e
| caught_get e :
    get_product_try event w = (Raise e, w') ->
    caught event w w' "Failed to get product" e
| caught_create e :
    create_product_try event w = (Raise e, w') ->
    caught event w w' "Failed to create product" e
| caught_update e product_id :
    path_parameter_id event = Ok product_id ->
    update_product_try product_id event w = (Raise e, w') ->
    caught event w w' "Failed to update product" e
| caught_delete e product_id :
    path_parameter_id event = Ok product_id ->
    delete_product_try product_id event w = (Raise e, w') ->
    caught event w w' "Failed to delete product" e
| caught_checkout e :
    checkout_try event w = (Raise e, w') ->
    caught event w w' "Checkout failed" e.

(** Providers that fault at once, with the given text. *)
Definition faulty_world (msg : string) : world :=
  World ∅ ∅ VNone VNone [] [] 1 [Some msg].

(** The next k provider calls are answered without a fault. *)
Fixpoint no_fault (k : nat) (o : list (option string)) : bool :=
  match k, o with
  | O, _ => true
  | S _, [] => true
  | S k', None :: o' => no_fault k' o'
  | S _, Some _ :: _ => false
  end.

Definition quiet (k : nat) (w : world) : bool := no_fault k (outcomes w).

(** [get_db_credentials], called n times in a row: the results, and the
    world at the end. *)
Fixpoint resolve_times (n : nat) (w : world) : list (result (value * value)) * world :=
  match n with
  | O => ([], w)
  | S n' =>
      let '(r, w1) := get_db_credentials w in
      let '(rs, w2) := resolve_times n' w1 in
      (r :: rs, w2)
  end.








Definition whole_cart : dict :=
  request "/checkout" "POST" VNone
    (VStr (Decoder.text
       "{'user_id': 'u1', 'items': [{'product_id': 'p1', 'quantity': 2, 'price': 5}, {'product_id': 'p2', 'quantity': 1, 'price': 7}]}")).




(** A product in the table, for the examples of [update_product]. *)
Definition widget : dict :=
  [("product_id", VStr "p1"); ("name", VStr "Widget");
   ("price", VDecimal (DecFinite false 999 (-2)));
   ("stock", VDecimal (DecFinite false 10 0)); ("colour", VStr "red")].

Definition stocked_world : world :=
  World (<["p1" := widget]> ∅) ∅ VNone VNone [] [] 1 [].

(** An update that names neither price nor stock. *)
Definition rename_request : dict :=
  request "/products/p1" "PUT" (with_id "p1") (VStr (Decoder.text "{'name': 'Gadget'}")).



(** A number that a binary64 float holds exactly: a finite float, or an
    integer that converts to a float without rounding. *)
Definition binary64_number (v : value) : bool :=
  match v with
  | VInt z =>
      match Float64.to_Q (Float64.of_Z z) with
      | Some q => Qeq_bool q (z # 1)
      | None => false
      end
  | VFloat f => Float64.is_finite f
  | _ => false
  end.



Definition create_widget : dict :=
  request "/products" "POST" VNone
    (VStr (Decoder.text
       "{'product_id': 'p1', 'name': 'Widget', 'price': 9.99, 'stock': 10}")).

Definition get_widget : dict :=
  request "/products/p1" "GET" (with_id "p1") VNone.

(** ** What the further statements speak of *)

(** A computation leaves a part of the world, read by [f], as it found it,
    whatever it returns or raises. *)
Definition untouched {X A} (f : world -> X) (m : M A) : Prop :=
  forall w, f (snd (m w)) = f w.

(** The same, from one given world. *)
Definition untouched_at {X A} (f : world -> X) (m : M A) (w : world) : Prop :=
  f (snd (m w)) = f w.

(** What belongs to the credentials and to the relational store. *)
Definition backends (w : world) : value * value * list string * list rds_call * Z :=
  (cached_rds_user w, cached_rds_password w, ssm_calls w, rds_calls w,
   rds_autoincrement w).

Definition is_execute (c : rds_call) : bool :=
  match c with
  | RdsExecute _ _ => true
  | _ => false
  end.

(** A value with every [Decimal] in it, at any depth, turned into a float. *)
Fixpoint emit_all (v : value) : value :=
  match v with
  | VDecimal d => VFloat (Float64.of_decimal d)
  | VList l => VList (map emit_all l)
  | VDict d => VDict (map (fun kv => (fst kv, emit_all (snd kv))) d)
  | _ => v
  end.

(** The attribute k of a payload is absent, or [Decimal(str(.))] takes it. *)
Definition convertible {lib : PyLib} (k : string) (payload : dict) : bool :=
  match dict_get payload k with
  | Some v => match Decimal_of_str v with Ok _ => true | Raise _ => false end
  | None => true
  end.

Definition is_str (v : value) : bool :=
  match v with
  | VStr _ => true
  | _ => false
  end.

(** The request is a PUT or a DELETE on an item path: the two routes whose
    handlers read [product_id] in their [except] clause. *)
Definition needs_id (path : string) (method : value) : bool :=
  String.prefix "/products/" path && (eq_str method "PUT" || eq_str method "DELETE").

Definition returns {A} (r : result A) : bool :=
  match r with
  | Ok _ => true
  | Raise _ => false
  end.

(** What [create_product] writes for the attribute k of a payload. *)
Definition coerced {lib : PyLib} (k : string) (payload stored : dict) : Prop :=
  match dict_get payload k with
  | Some v => exists d, Decimal_of_str v = Ok d /\ dict_get stored k = Some (VDecimal d)
  | None => dict_get stored k = None
  end.

(** Requests and worlds of the further examples. *)
Definition delete_widget : dict :=
  request "/products/p1" "DELETE" (with_id "p1") VNone.

Definition null_price : dict :=
  request "/products" "POST" VNone
    (VStr (Decoder.text "{'product_id': 'p1', 'price': null}")).




Definition bad_update : dict :=
  request "/products/p1" "PUT" (with_id "p1") (VStr (Decoder.text "{'price': [1]}")).

Definition anonymous_cart : dict :=
  request "/checkout" "POST" VNone (VStr (Decoder.text "{'items': []}")).

Definition priceless_cart : dict :=
  request "/checkout" "POST" VNone
    (VStr (Decoder.text "{'user_id': 'u1', 'items': [{'product_id': 'p1', 'quantity': 1}]}")).

(** A process that holds both credentials, and an SSM that has none. *)
Definition warm_world : world :=
  World ∅ ∅ (VStr "admin") (VStr "secret") [] [] 1 [].

Definition null_path : dict :=
  [("path", VNone); ("httpMethod", VStr "GET")].

(** SSM answers the first call and faults on the second. *)
Definition flaky_ssm_world : world :=
  World ∅
        (<["/ubuntucrafts/db_username" := "admin"]>
           (<["/ubuntucrafts/db_password" := "secret"]> ∅))
        VNone VNone [] [] 1 [None; Some "Throttled"].

(** * Properties *)

(** ** Stepping through computations *)

Lemma bind_ok {A B} (m : M A) (f : A -> M B) w a w' :
  m w = (Ok a, w') -> (m ≫= f) w = f a w'.
Proof. intros E. unfold mbind, M_bind. now rewrite E. Qed.

Lemma bind_raise {A B} (m : M A) (f : A -> M B) w e w' :
  m w = (Raise e, w') -> (m ≫= f) w = (Raise e, w').
Proof. intros E. unfold mbind, M_bind. now rewrite E. Qed.

Lemma bind_lift_ok {A B} (a : A) (f : A -> M B) w :
  (lift (Ok a) ≫= f) w = f a w.
Proof. reflexivity. Qed.

Lemma bind_lift_raise {A B} (e : exn) (f : A -> M B) w :
  (lift (Raise e) ≫= f) w = (Raise e, w).
Proof. reflexivity. Qed.

Lemma try_except_ok {A} (m : M A) h w a w' :
  m w = (Ok a, w') -> try_except m h w = (Ok a, w').
Proof. intros E. unfold try_except. now rewrite E. Qed.

Lemma try_except_raise {A} (m : M A) h w e w' :
  m w = (Raise e, w') -> try_except m h w = h e w'.
Proof. intros E. unfold try_except. now rewrite E. Qed.

Lemma provider_call_answers fault w :
  answers w = true -> provider_call fault w = (Ok tt, answered w).
Proof.
  unfold answers, provider_call.
  destruct (head (outcomes w)) as [[msg|]|]; [discriminate | reflexivity | reflexivity].
Qed.

Lemma provider_call_faults fault msg w :
  faults_with msg w -> provider_call fault w = (Raise (fault msg), answered w).
Proof. intros Hf. unfold provider_call. now rewrite Hf. Qed.

(** ** Routing *)

Lemma item_path_not_collection p :
  String.prefix "/products/" p = true -> String.eqb p "/products" = false.
Proof.
  intros Hp. destruct (String.eqb_spec p "/products") as [->|]; [discriminate | reflexivity].
Qed.

Lemma item_path_not_checkout p :
  String.prefix "/products/" p = true -> String.eqb p "/checkout" = false.
Proof.
  intros Hp. destruct (String.eqb_spec p "/checkout") as [->|]; [discriminate | reflexivity].
Qed.

Section Routing.

Context {lib : PyLib}.

(** C5. A request whose path and method match none of the six routes is
    answered with the fixed 400 response, body
    [{"error": "Invalid route or method"}], whether the path is unknown or
    the method is wrong; the world is left as it was. *)
Theorem unmatched_route_is_400 (event : dict) (path method : string) (w : world) :
  event_get event "path" (VStr EmptyString) = VStr path ->
  event_get event "httpMethod" (VStr EmptyString) = VStr method ->
  routed path method = false ->
  lambda_handler event w
  = (Ok (Response 400 (VDict [("error", VStr "Invalid route or method")])), w).
Proof.
  intros Hp Hm Hr. unfold routed in Hr.
  repeat (apply orb_false_iff in Hr; destruct Hr as [Hr ?]).
  unfold lambda_handler. rewrite Hp, Hm. cbn [eq_str py_startswith].
  rewrite Hr.
  repeat (rewrite bind_lift_ok; cbv beta;
          repeat match goal with E : (_ && _)%bool = false |- _ => rewrite E; clear E end).
  reflexivity.
Qed.

(** C6. Any path that begins with "/products/", whatever follows (nothing,
    for "/products/"), goes to [get_product] on GET, to [update_product] on
    PUT and to [delete_product] on DELETE; the path "/products" goes to
    [list_products] on GET, to [create_product] on POST, and to no handler
    otherwise. *)
Theorem item_paths_dispatch_by_prefix (event : dict) (path : string) (method : value)
    (w : world) :
  event_get event "path" (VStr EmptyString) = VStr path ->
  event_get event "httpMethod" (VStr EmptyString) = method ->
  (String.prefix "/products/" path = true ->
     (method = VStr "GET" -> lambda_handler event w = get_product event w)
     /\ (method = VStr "PUT" -> lambda_handler event w = update_product event w)
     /\ (method = VStr "DELETE" -> lambda_handler event w = delete_product event w))
  /\ (path = "/products" ->
        lambda_handler event w
        = if eq_str method "GET" then list_products event w
          else if eq_str method "POST" then create_product event w
          else (Ok invalid_route, w)).
Proof.
  intros Hp Hm. split.
  - intros Hpre.
    pose proof (item_path_not_collection _ Hpre) as Hne.
    repeat split; intros ->; unfold lambda_handler; rewrite Hp, Hm;
      cbn [eq_str py_startswith]; rewrite Hne, Hpre; reflexivity.
  - intros ->. unfold lambda_handler. rewrite Hp, Hm. cbn [eq_str py_startswith].
    change (("/products" =? "/products")%string) with true.
    change (("/products" =? "/checkout")%string) with false.
    change (String.prefix "/products/" "/products") with false.
    cbn [andb]. destruct (eq_str method "GET"); [reflexivity|].
    rewrite bind_lift_ok. cbn [andb].
    destruct (eq_str method "POST"); reflexivity.
Qed.

End Routing.

(** The two requests the specification names for C5. *)
Lemma unmatched_route_examples :
  lambda_handler (lib := example_lib) (request "/unknown" "GET" VNone VNone) fresh_world
  = (Ok (Response 400 (VDict [("error", VStr "Invalid route or method")])), fresh_world)
  /\ lambda_handler (lib := example_lib) (request "/products" "PATCH" VNone VNone) fresh_world
     = (Ok (Response 400 (VDict [("error", VStr "Invalid route or method")])), fresh_world).
Proof.
  split.
  - apply (unmatched_route_is_400 (lib := example_lib)) with (path := "/unknown") (method := "GET");
      reflexivity.
  - apply (unmatched_route_is_400 (lib := example_lib)) with (path := "/products") (method := "PATCH");
      reflexivity.
Defined.

(** "/products/" with nothing after the prefix still goes to the item
    handlers. *)
Lemma empty_id_dispatch_example :
  String.prefix "/products/" "/products/" = true
  /\ lambda_handler (lib := example_lib) (request "/products/" "GET" VNone VNone) fresh_world
     = get_product (request "/products/" "GET" VNone VNone) fresh_world.
Proof.
  split; [reflexivity|].
  apply (item_paths_dispatch_by_prefix (lib := example_lib)
           (request "/products/" "GET" VNone VNone) "/products/" (VStr "GET") fresh_world);
    reflexivity.
Defined.

(** ** Reading a product *)

Lemma table_get_item_answers k w :
  answers w = true ->
  table_get_item (VStr k) w
  = (Ok (VDict (match table w !! k with
                | Some item => [("Item", VDict item)]
                | None => []
                end)), answered w).
Proof.
  intros Ha. unfold table_get_item.
  rewrite (bind_ok _ _ _ _ _ (provider_call_answers _ _ Ha)). reflexivity.
Qed.

Lemma table_get_item_faults v msg w :
  faults_with msg w -> table_get_item v w = (Raise (ClientError msg), answered w).
Proof.
  intros Hf. unfold table_get_item.
  now rewrite (bind_raise _ _ _ _ _ (provider_call_faults _ _ _ Hf)).
Qed.

(** C7. For an id that is not in the table, [get_product] answers 404 with
    body [{"error": "Product not found"}]: a distinct outcome, not a 500. When
    the provider faults during the lookup, it answers 500, with the text of
    the fault. *)
Theorem missing_product_is_404 (event : dict) (id : string) (w : world) :
  path_parameter_id event = Ok (VStr id) ->
  (table w !! id = None -> answers w = true ->
   get_product event w
   = (Ok (Response 404 (VDict [("error", VStr "Product not found")])), answered w))
  /\ (forall msg, faults_with msg w ->
      get_product event w
      = (Ok (Response 500 (VDict [("error", VStr "Failed to get product");
                                  ("details", VStr msg)])), answered w)).
Proof.
  intros Hid. split.
  - intros Hnone Ha. unfold get_product. apply try_except_ok.
    unfold get_product_try. rewrite Hid, bind_lift_ok.
    rewrite (bind_ok _ _ _ _ _ (table_get_item_answers id w Ha)).
    rewrite Hnone. reflexivity.
  - intros msg Hf. unfold get_product.
    rewrite try_except_raise with (e := ClientError msg) (w' := answered w); [reflexivity|].
    unfold get_product_try. rewrite Hid, bind_lift_ok.
    now rewrite (bind_raise _ _ _ _ _ (table_get_item_faults _ _ _ Hf)).
Qed.

Lemma missing_product_example :
  get_product (request "/products/ghost" "GET" (with_id "ghost") VNone) fresh_world
  = (Ok (Response 404 (VDict [("error", VStr "Product not found")])), answered fresh_world)
  /\ get_product (request "/products/ghost" "GET" (with_id "ghost") VNone)
       (faulty_world "Throttled")
     = (Ok (Response 500 (VDict [("error", VStr "Failed to get product");
                                 ("details", VStr "Throttled")])),
        answered (faulty_world "Throttled")).
Proof.
  split.
  - apply (missing_product_is_404 (request "/products/ghost" "GET" (with_id "ghost") VNone)
             "ghost" fresh_world); reflexivity.
  - apply (missing_product_is_404 (request "/products/ghost" "GET" (with_id "ghost") VNone)
             "ghost" (faulty_world "Throttled")); reflexivity.
Defined.

(** ** Failures that escape *)

Section Escapes.

Context {lib : PyLib}.

Lemma update_product_unbound event e w :
  path_parameter_id event = Raise e ->
  update_product event w = (Raise (unbound_local "product_id"), w).
Proof. intros E. unfold update_product. now rewrite E. Qed.

Lemma delete_product_unbound event e w :
  path_parameter_id event = Raise e ->
  delete_product event w = (Raise (unbound_local "product_id"), w).
Proof. intros E. unfold delete_product. now rewrite E. Qed.

(** C2, at a request the router lets through: a PUT on "/products/p1" whose
    [pathParameters] is null. The first statement of the [try] block of
    [update_product] raises, the [except] clause reads [product_id], which is
    not bound, and the [UnboundLocalError] leaves [lambda_handler]: no response
    is returned. The same holds for DELETE. *)
Theorem put_without_path_parameters_raises (w : world) :
  lambda_handler (request "/products/p1" "PUT" VNone (VStr "{}")) w
  = (Raise (unbound_local "product_id"), w)
  /\ lambda_handler (request "/products/p1" "DELETE" VNone VNone) w
     = (Raise (unbound_local "product_id"), w).
Proof. split; reflexivity. Qed.

End Escapes.

(** ** The shape of failure responses *)

Lemma bind_ok_inv {A B} (m : M A) (f : A -> M B) w b w' :
  (m ≫= f) w = (Ok b, w') -> exists a w1, m w = (Ok a, w1) /\ f a w1 = (Ok b, w').
Proof.
  unfold mbind, M_bind. destruct (m w) as [[a|e] w1]; [eauto | discriminate].
Qed.

Lemma try_except_inv {A} (m : M A) h w r :
  try_except m h w = r ->
  (exists a w', m w = (Ok a, w') /\ r = (Ok a, w'))
  \/ (exists e w', m w = (Raise e, w') /\ r = h e w').
Proof.
  unfold try_except. destruct (m w) as [[a|e] w']; intros <-; eauto.
Qed.

(** Inverts, one after the other, the steps of a computation that is known to
    have returned. *)
Ltac returned H :=
  repeat (let a := fresh "a" in let w1 := fresh "w" in let E := fresh "E" in
          apply bind_ok_inv in H; destruct H as (a & w1 & E & H)).

Section Failures.

Context {lib : PyLib}.

Lemma list_products_try_status event w r w' :
  list_products_try event w = (Ok r, w') -> statusCode r = 200.
Proof.
  unfold list_products_try. intros Hr. returned Hr. now inversion Hr.
Qed.

Lemma get_product_try_status event w r w' :
  get_product_try event w = (Ok r, w') ->
  statusCode r = 200
  \/ (statusCode r = 404 /\ body r = VDict [("error", VStr "Product not found")]).
Proof.
  unfold get_product_try. intros Hr. returned Hr.
  destruct (negb (truthy a1)).
  - inversion Hr. right. split; reflexivity.
  - returned Hr. inversion Hr. now left.
Qed.

Lemma create_product_try_status event w r w' :
  create_product_try event w = (Ok r, w') -> statusCode r = 200.
Proof.
  unfold create_product_try. intros Hr. returned Hr. now inversion Hr.
Qed.

Lemma update_product_try_status product_id event w r w' :
  update_product_try product_id event w = (Ok r, w') -> statusCode r = 200.
Proof.
  unfold update_product_try. intros Hr. returned Hr. now inversion Hr.
Qed.

Lemma delete_product_try_status product_id event w r w' :
  delete_product_try product_id event w = (Ok r, w') -> statusCode r = 200.
Proof.
  unfold delete_product_try. intros Hr. returned Hr. now inversion Hr.
Qed.

Lemma checkout_try_status event w r w' :
  checkout_try event w = (Ok r, w') -> statusCode r = 200.
Proof.
  unfold checkout_try. intros Hr. returned Hr. now inversion Hr.
Qed.

(** What [lambda_handler] returns is what one of the six handlers returns, or
    the fixed response for a request that matches no route. *)
Lemma lambda_handler_serves event w r w' :
  lambda_handler event w = (Ok r, w') ->
  list_products event w = (Ok r, w') \/ get_product event w = (Ok r, w')
  \/ create_product event w = (Ok r, w') \/ update_product event w = (Ok r, w')
  \/ delete_product event w = (Ok r, w') \/ checkout event w = (Ok r, w')
  \/ (r = invalid_route /\ w' = w).
Proof.
  unfold lambda_handler.
  destruct (eq_str _ "/products" && eq_str _ "GET"); [tauto|].
  destruct (py_startswith _ _) as [b|e]; [|discriminate].
  rewrite bind_lift_ok; cbv beta.
  destruct (b && eq_str _ "GET"); [tauto|].
  destruct (eq_str _ "/products" && eq_str _ "POST"); [tauto|].
  rewrite bind_lift_ok; cbv beta.
  destruct (b && eq_str _ "PUT"); [tauto|].
  rewrite bind_lift_ok; cbv beta.
  destruct (b && eq_str _ "DELETE"); [tauto|].
  destruct (eq_str _ "/checkout" && eq_str _ "POST"); [tauto|].
  intros Hr. inversion Hr. tauto.
Qed.

(** C8, as the function has it. A response of [lambda_handler] is a success
    (200), or the 404 of [get_product] with body
    [{"error": "Product not found"}], or the 400 of the router with body
    [{"error": "Invalid route or method"}], or a 500 whose body has exactly an
    [error] summary and a [details] field holding the text of the exception
    that the handler's [try] block raised. Only the 500 responses carry
    [details]. *)
Theorem failure_bodies (event : dict) (w w' : world) (r : response) :
  lambda_handler event w = (Ok r, w') ->
  statusCode r = 200
  \/ (statusCode r = 404 /\ body r = VDict [("error", VStr "Product not found")])
  \/ (statusCode r = 400 /\ body r = VDict [("error", VStr "Invalid route or method")])
  \/ (statusCode r = 500
      /\ exists summary e,
           caught event w w' summary e
           /\ body r = VDict [("error", VStr summary); ("details", VStr (exn_str e))]).
Proof.
  intros Hr. apply lambda_handler_serves in Hr.
  destruct Hr as [Hr|[Hr|[Hr|[Hr|[Hr|[Hr|[-> ->]]]]]]].
  - apply try_except_inv in Hr. destruct Hr as [(a & w1 & E & Hr)|(e & w1 & E & Hr)].
    + inversion Hr; subst. left. eapply list_products_try_status, E.
    + inversion Hr; subst. do 3 right. split; [reflexivity|].
      exists "Failed to list products", e. split; [now apply caught_list | reflexivity].
  - apply try_except_inv in Hr. destruct Hr as [(a & w1 & E & Hr)|(e & w1 & E & Hr)].
    + inversion Hr; subst. destruct (get_product_try_status _ _ _ _ E); tauto.
    + inversion Hr; subst. do 3 right. split; [reflexivity|].
      exists "Failed to get product", e. split; [now apply caught_get | reflexivity].
  - apply try_except_inv in Hr. destruct Hr as [(a & w1 & E & Hr)|(e & w1 & E & Hr)].
    + inversion Hr; subst. left. eapply create_product_try_status, E.
    + inversion Hr; subst. do 3 right. split; [reflexivity|].
      exists "Failed to create product", e. split; [now apply caught_create | reflexivity].
  - unfold update_product in Hr.
    destruct (path_parameter_id event) as [product_id|e0] eqn:Hid; [|discriminate].
    apply try_except_inv in Hr. destruct Hr as [(a & w1 & E & Hr)|(e & w1 & E & Hr)].
    + inversion Hr; subst. left. eapply update_product_try_status, E.
    + inversion Hr; subst. do 3 right. split; [reflexivity|].
      exists "Failed to update product", e.
      split; [now apply caught_update with product_id | reflexivity].
  - unfold delete_product in Hr.
    destruct (path_parameter_id event) as [product_id|e0] eqn:Hid; [|discriminate].
    apply try_except_inv in Hr. destruct Hr as [(a & w1 & E & Hr)|(e & w1 & E & Hr)].
    + inversion Hr; subst. left. eapply delete_product_try_status, E.
    + inversion Hr; subst. do 3 right. split; [reflexivity|].
      exists "Failed to delete product", e.
      split; [now apply caught_delete with product_id | reflexivity].
  - apply try_except_inv in Hr. destruct Hr as [(a & w1 & E & Hr)|(e & w1 & E & Hr)].
    + inversion Hr; subst. left. eapply checkout_try_status, E.
    + inversion Hr; subst. do 3 right. split; [reflexivity|].
      exists "Checkout failed", e. split; [now apply caught_checkout | reflexivity].
  - right. right. left. split; reflexivity.
Qed.

End Failures.

(** C8 as stated fails: the 400 of the router and the 404 of [get_product] are
    failure responses whose body has an [error] field and no [details]. *)
Lemma failure_without_details :
  lambda_handler (lib := example_lib) (request "/unknown" "GET" VNone VNone) fresh_world
  = (Ok (Response 400 (VDict [("error", VStr "Invalid route or method")])), fresh_world)
  /\ py_getitem (VDict [("error", VStr "Invalid route or method")]) "details"
     = Raise (KeyError "details")
  /\ lambda_handler (lib := example_lib)
       (request "/products/ghost" "GET" (with_id "ghost") VNone) fresh_world
     = (Ok (Response 404 (VDict [("error", VStr "Product not found")])), answered fresh_world)
  /\ py_getitem (VDict [("error", VStr "Product not found")]) "details"
     = Raise (KeyError "details").
Proof. repeat split; reflexivity. Qed.

(** A lookup during which the provider faults: the 500 carries the text. *)
Lemma failure_bodies_example :
  statusCode (Response 500 (error_body "Failed to get product" (ClientError "Throttled"))) = 200
  \/ (statusCode (Response 500 (error_body "Failed to get product" (ClientError "Throttled"))) = 404
      /\ body (Response 500 (error_body "Failed to get product" (ClientError "Throttled")))
         = VDict [("error", VStr "Product not found")])
  \/ (statusCode (Response 500 (error_body "Failed to get product" (ClientError "Throttled"))) = 400
      /\ body (Response 500 (error_body "Failed to get product" (ClientError "Throttled")))
         = VDict [("error", VStr "Invalid route or method")])
  \/ (statusCode (Response 500 (error_body "Failed to get product" (ClientError "Throttled"))) = 500
      /\ exists summary e,
           caught (lib := example_lib)
             (request "/products/ghost" "GET" (with_id "ghost") VNone)
             (faulty_world "Throttled") (answered (faulty_world "Throttled")) summary e
           /\ body (Response 500 (error_body "Failed to get product" (ClientError "Throttled")))
              = VDict [("error", VStr summary); ("details", VStr (exn_str e))]).
Proof.
  apply (failure_bodies (lib := example_lib)
           (request "/products/ghost" "GET" (with_id "ghost") VNone)
           (faulty_world "Throttled") (answered (faulty_world "Throttled"))).
  reflexivity.
Defined.

(** ** Credentials *)

Lemma quiet_S k w :
  quiet (S k) w = true -> answers w = true /\ quiet k (answered w) = true.
Proof.
  unfold quiet, answers, answered. cbn [outcomes set_outcomes].
  destruct (outcomes w) as [|[msg|] o]; cbn; intros Hq; try discriminate; split; trivial.
  now destruct k.
Qed.

Lemma get_ssm_parameter_answers name v w :
  answers w = true ->
  ssm_parameters w !! name = Some v ->
  get_ssm_parameter name w
  = (Ok (VStr v), answered (set_ssm_calls (ssm_calls w ++ [name]) w)).
Proof.
  intros Ha Hv.
  assert (E : ssm_get_parameter name w
              = (Ok (VDict [("Parameter", VDict [("Name", VStr name); ("Value", VStr v)])]),
                 answered (set_ssm_calls (ssm_calls w ++ [name]) w))).
  { unfold ssm_get_parameter.
    erewrite bind_ok by reflexivity.
    erewrite bind_ok by (apply provider_call_answers; exact Ha).
    erewrite bind_ok by reflexivity.
    cbn [ssm_parameters answered set_outcomes set_ssm_calls]. rewrite Hv. reflexivity. }
  unfold get_ssm_parameter. rewrite (bind_ok _ _ _ _ _ E). reflexivity.
Qed.

(** With both values cached, nothing is fetched and nothing changes. *)
Lemma get_db_credentials_cached w :
  truthy (cached_rds_user w) = true ->
  truthy (cached_rds_password w) = true ->
  get_db_credentials w = (Ok (cached_rds_user w, cached_rds_password w), w).
Proof.
  intros Hu Hp. unfold get_db_credentials, mbind, M_bind, gets.
  rewrite Hu. cbn. rewrite Hp. reflexivity.
Qed.

Lemma resolve_times_cached n w :
  truthy (cached_rds_user w) = true ->
  truthy (cached_rds_password w) = true ->
  resolve_times n w = (repeat (Ok (cached_rds_user w, cached_rds_password w)) n, w).
Proof.
  intros Hu Hp. induction n as [|n IH]; [reflexivity|].
  cbn [resolve_times repeat]. rewrite (get_db_credentials_cached w Hu Hp), IH. reflexivity.
Qed.

(** C9. In a process that has cached nothing, with both secrets in SSM,
    non-empty, and SSM answering, the first call of [get_db_credentials]
    fetches the user name and then the password, stores both, and returns
    them. Any number of further calls return the same pair and leave the world
    as it is: no further fetch. The same holds in any later state of the
    process that still holds the pair, whatever SSM would answer then. *)
Theorem credentials_fetched_once (w : world) (user password : string) (n : nat) :
  cached_rds_user w = VNone ->
  cached_rds_password w = VNone ->
  ssm_parameters w !! "/ubuntucrafts/db_username" = Some user ->
  ssm_parameters w !! "/ubuntucrafts/db_password" = Some password ->
  truthy (VStr user) = true ->
  truthy (VStr password) = true ->
  quiet 2 w = true ->
  exists w1,
    get_db_credentials w = (Ok (VStr user, VStr password), w1)
    /\ cached_rds_user w1 = VStr user
    /\ cached_rds_password w1 = VStr password
    /\ ssm_calls w1
       = (ssm_calls w ++ ["/ubuntucrafts/db_username"; "/ubuntucrafts/db_password"])%list
    /\ resolve_times n w1 = (repeat (Ok (VStr user, VStr password)) n, w1)
    /\ forall w2,
         cached_rds_user w2 = VStr user ->
         cached_rds_password w2 = VStr password ->
         get_db_credentials w2 = (Ok (VStr user, VStr password), w2).
Proof.
  intros Hcu Hcp Hu Hp Htu Htp Hq.
  apply quiet_S in Hq. destruct Hq as [Ha1 Hq].
  apply quiet_S in Hq. destruct Hq as [Ha2 _].
  assert (Hwarm : forall w2, cached_rds_user w2 = VStr user ->
                             cached_rds_password w2 = VStr password ->
                             get_db_credentials w2 = (Ok (VStr user, VStr password), w2)).
  { intros w2 E1 E2.
    rewrite (get_db_credentials_cached w2); rewrite ?E1, ?E2; trivial. }
  set (wu := set_cached_rds_user (VStr user)
               (answered (set_ssm_calls (ssm_calls w ++ ["/ubuntucrafts/db_username"]) w))).
  set (w1 := set_cached_rds_password (VStr password)
               (answered (set_ssm_calls (ssm_calls wu ++ ["/ubuntucrafts/db_password"]) wu))).
  exists w1.
  assert (Hfirst : get_db_credentials w = (Ok (VStr user, VStr password), w1)).
  { unfold get_db_credentials. unfold mbind at 1 2, M_bind, gets.
    rewrite Hcu. cbn [truthy negb].
    unfold mbind at 1 2, M_bind.
    rewrite (get_ssm_parameter_answers _ _ _ Ha1 Hu). unfold modify. fold wu.
    unfold mbind at 1 2, M_bind.
    replace (cached_rds_password wu) with VNone by (symmetry; exact Hcp).
    cbn [truthy negb]. unfold mbind at 1 2, M_bind.
    rewrite (get_ssm_parameter_answers "/ubuntucrafts/db_password" password wu);
      [| exact Ha2 | exact Hp].
    fold w1. reflexivity. }
  repeat split; trivial.
  - subst w1 wu. cbn. now rewrite <- app_assoc.
  - rewrite (resolve_times_cached n w1); trivial.
Qed.

Lemma credentials_fetched_once_example :
  exists w1,
    get_db_credentials fresh_world = (Ok (VStr "admin", VStr "secret"), w1)
    /\ cached_rds_user w1 = VStr "admin"
    /\ cached_rds_password w1 = VStr "secret"
    /\ ssm_calls w1
       = (ssm_calls fresh_world
          ++ ["/ubuntucrafts/db_username"; "/ubuntucrafts/db_password"])%list
    /\ resolve_times 3 w1 = (repeat (Ok (VStr "admin", VStr "secret")) 3, w1)
    /\ forall w2,
         cached_rds_user w2 = VStr "admin" ->
         cached_rds_password w2 = VStr "secret" ->
         get_db_credentials w2 = (Ok (VStr "admin", VStr "secret"), w2).
Proof.
  apply (credentials_fetched_once fresh_world "admin" "secret" 3); reflexivity.
Defined.

(** ** Checkout *)

Lemma no_fault_S k o :
  no_fault (S k) o = true ->
  match head o with Some (Some _) => false | _ => true end = true
  /\ no_fault k (tail o) = true.
Proof.
  destruct o as [|[msg|] o]; cbn; intros Hq; try discriminate; split; trivial.
  now destruct k.
Qed.







Lemma no_fault_tail k o : no_fault (S k) o = true -> no_fault k (tail o) = true.
Proof. intros Hq. now apply no_fault_S in Hq. Qed.





(** Fetching the credentials does not touch the relational store. *)
Lemma get_db_credentials_frame w r w0 :
  get_db_credentials w = (r, w0) ->
  rds_calls w0 = rds_calls w /\ rds_autoincrement w0 = rds_autoincrement w
  /\ table w0 = table w.
Proof.
  unfold get_db_credentials, get_ssm_parameter, ssm_get_parameter, provider_call,
    mbind, M_bind, gets, modify, lift, mret, M_ret, raise, answered.
  cbn [rds_calls rds_autoincrement table outcomes ssm_parameters
       set_ssm_calls set_outcomes set_cached_rds_user set_cached_rds_password
       cached_rds_user cached_rds_password].
  repeat match goal with
         | |- context [match ?x with _ => _ end] =>
             lazymatch x with
             | context [match _ with _ => _ end] => fail
             | _ => destruct x eqn:?
             end
         | |- context [if ?x then _ else _] => destruct x eqn:?
         end;
    cbn; intros E; inversion E; subst; cbn; auto.
Qed.

Section Checkout.

Context {lib : PyLib}.






End Checkout.




(** ** Updating a product *)

Lemma dict_get_set_eq d k v : dict_get (dict_set d k v) k = Some v.
Proof.
  induction d as [|[k' v'] d IH]; cbn.
  - now rewrite String.eqb_refl.
  - destruct (String.eqb k' k) eqn:E; cbn; rewrite E; [reflexivity | exact IH].
Qed.

Lemma dict_get_set_ne d k v k' : k <> k' -> dict_get (dict_set d k v) k' = dict_get d k'.
Proof.
  intros Hne. induction d as [|[k0 v0] d IH]; cbn.
  - destruct (String.eqb_spec k k'); [contradiction | reflexivity].
  - destruct (String.eqb_spec k0 k) as [->|]; cbn.
    + destruct (String.eqb_spec k k'); [contradiction | reflexivity].
    + destruct (String.eqb k0 k'); [reflexivity | exact IH].
Qed.


Section Update.

Context {lib : PyLib}.


End Update.


(** ** Creating a product, then reading it *)




(** Induction on values, through the lists and dictionaries they hold. *)
Lemma value_nested_ind (P : value -> Prop) :
  P VNone -> (forall b, P (VBool b)) -> (forall z, P (VInt z)) ->
  (forall f, P (VFloat f)) -> (forall s, P (VStr s)) -> (forall d, P (VDecimal d)) ->
  (forall l, Forall P l -> P (VList l)) ->
  (forall d, Forall (fun kv => P (snd kv)) d -> P (VDict d)) ->
  forall v, P v.
Proof.
  intros HN HB HI HF HS HD HL HM.
  fix IH 1. intros [ |b|z|f|s|d|l|d];
    [exact HN | apply HB | apply HI | apply HF | apply HS | apply HD | | ].
  - apply HL. induction l as [|x l IHl]; constructor; [apply IH | exact IHl].
  - apply HM. induction d as [|[k x] d IHd]; constructor; [apply IH | exact IHd].
Qed.










(** *** Integers that a float holds exactly

    Every integer below 2^53 in absolute value converts to a float without
    rounding. *)

Lemma digits2_size m : digits2_pos m = Pos.size m.
Proof. induction m; cbn; congruence. Qed.

Lemma digits2_bound m : Z.pos m < 2 ^ 53 -> Z.pos (digits2_pos m) <= 53.
Proof.
  intros Hm. rewrite digits2_size.
  pose proof (Pos.size_le m) as Hs.
  assert (H2 : 2 ^ Z.pos (Pos.size m) <= 2 * Z.pos m).
  { change (2 * Z.pos m) with (Z.pos m~0). rewrite <- Pos2Z.inj_pow. exact Hs. }
  destruct (Z_le_gt_dec (Z.pos (Pos.size m)) 53) as [|Hgt]; [assumption|exfalso].
  assert (2 ^ 54 <= 2 ^ Z.pos (Pos.size m)) by (apply Z.pow_le_mono_r; lia).
  change (2 ^ 54) with (2 * 2 ^ 53) in *. lia.
Qed.

Lemma digits2_iter m k : digits2_pos (Pos.iter xO m k) = (digits2_pos m + k)%positive.
Proof.
  induction k using Pos.peano_ind.
  - cbn. lia.
  - rewrite Pos.iter_succ. cbn [digits2_pos]. rewrite IHk. lia.
Qed.

Lemma iter_xO_mul m k : Z.pos (Pos.iter xO m k) = Z.pos m * 2 ^ Z.pos k.
Proof.
  induction k using Pos.peano_ind.
  - cbn. lia.
  - rewrite Pos.iter_succ, Pos2Z.inj_succ, Z.pow_succ_r by lia.
    rewrite Pos2Z.inj_xO, IHk. lia.
Qed.

Lemma binary_round_aux_canonical s mz ez :
  Z.pos (digits2_pos mz) = 53 -> -1074 <= ez <= 971 ->
  binary_round_aux 53 1024 s (Z.pos mz) ez loc_Exact = S754_finite s mz ez.
Proof.
  intros Hd He.
  assert (E : Z.max (53 + ez - 53) (3 - 1024 - 53) - ez = 0) by lia.
  assert (Hle : (ez <=? 1024 - 53) = true) by (apply Z.leb_le; lia).
  unfold binary_round_aux, shr_fexp, fexp, emin.
  cbn [Zdigits2 shr_record_of_loc]. rewrite Hd, E.
  cbn [shr loc_of_shr_record shr_m round_nearest_even Zdigits2 shr_record_of_loc].
  rewrite Hd, E. cbn [shr shr_m]. now rewrite Hle.
Qed.

Lemma binary_round_small s m :
  Z.pos m < 2 ^ 53 ->
  exists mz ez, binary_round 53 1024 s m 0 = S754_finite s mz ez
    /\ ez <= 0 /\ Z.pos mz = Z.pos m * 2 ^ (- ez).
Proof.
  intros Hm. pose proof (digits2_bound m Hm) as Hd.
  unfold binary_round, shl_align, fexp, emin.
  rewrite Z.add_0_r, Z.sub_0_r.
  assert (Hmax : Z.max (Z.pos (digits2_pos m) - 53) (3 - 1024 - 53)
                 = Z.pos (digits2_pos m) - 53) by lia.
  rewrite Hmax.
  destruct (Z.pos (digits2_pos m) - 53) as [|k|k] eqn:Hk; try lia.
  - exists m, 0. split; [|split; [lia | cbn; lia]].
    apply binary_round_aux_canonical; lia.
  - exists (Pos.iter xO m k), (Z.neg k).
    split; [|split; [lia | rewrite iter_xO_mul; reflexivity]].
    apply binary_round_aux_canonical; [rewrite digits2_iter|]; lia.
Qed.

Lemma small_int_is_binary64 z : Z.abs z < 2 ^ 53 -> binary64_number (VInt z) = true.
Proof.
  intros Hz. unfold binary64_number, Float64.of_Z, binary_normalize, Float64.prec, Float64.emax.
  destruct z as [|m|m].
  - reflexivity.
  - destruct (binary_round_small false m Hz) as (mz & ez & -> & Hez & Hmz).
    cbn [Float64.to_Q]. apply Qeq_bool_iff.
    destruct (0 <=? ez) eqn:E.
    + apply Z.leb_le in E. assert (ez = 0) by lia. subst ez.
      unfold Qeq. cbn [Qnum Qden]. cbn in Hmz. lia.
    + unfold Qeq. cbn [Qnum Qden]. rewrite Z2Pos.id by (apply Z.pow_pos_nonneg; lia). lia.
  - destruct (binary_round_small true m Hz) as (mz & ez & -> & Hez & Hmz).
    cbn [Float64.to_Q]. apply Qeq_bool_iff.
    destruct (0 <=? ez) eqn:E.
    + apply Z.leb_le in E. assert (ez = 0) by lia. subst ez.
      unfold Qeq. cbn [Qnum Qden]. cbn in Hmz. lia.
    + unfold Qeq. cbn [Qnum Qden]. rewrite Z2Pos.id by (apply Z.pow_pos_nonneg; lia). lia.
Qed.

(** Beyond that range an integer may be rounded: 2^53 + 1 is not such a
    number, [float] of it is 2^53. *)
Example large_int_is_rounded :
  binary64_number (VInt 9007199254740993) = false
  /\ Float64.of_Z 9007199254740993 = Float64.of_Z 9007199254740992.
Proof. split; vm_compute; reflexivity. Qed.

Section CreateThenGet.

Context {lib : PyLib}.




End CreateThenGet.


(** What the read of the scenario returns: 9.99 and 10.0, as floats. *)
Example create_then_get_widget :
  fst (get_product get_widget
         (snd (create_product (lib := example_lib) create_widget fresh_world)))
  = Ok (Response 200
          (VDict [("product_id", VStr "p1"); ("name", VStr "Widget");
                  ("price", VFloat (S754_finite false 5623870034678907 (-49)));
                  ("stock", VFloat (S754_finite false 5629499534213120 (-49)))])).
Proof. vm_compute. reflexivity. Qed.

(** * Further properties *)

(** ** What the handlers leave alone *)

Lemma untouched_ret {X A} (f : world -> X) (a : A) : untouched f (mret a).
Proof. intros w. reflexivity. Qed.

Lemma untouched_lift {X A} (f : world -> X) (r : result A) : untouched f (lift r).
Proof. intros w. reflexivity. Qed.

Lemma untouched_raise {X A} (f : world -> X) (e : exn) : untouched f (raise (A := A) e).
Proof. intros w. reflexivity. Qed.

Lemma untouched_gets {X A} (f : world -> X) (g : world -> A) : untouched f (gets g).
Proof. intros w. reflexivity. Qed.

Lemma untouched_modify {X} (f : world -> X) (g : world -> world) :
  (forall w, f (g w) = f w) -> untouched f (modify g).
Proof. intros Hg w. apply Hg. Qed.

Lemma untouched_bind {X A B} (f : world -> X) (m : M A) (k : A -> M B) :
  untouched f m -> (forall a, untouched f (k a)) -> untouched f (m ≫= k).
Proof.
  intros Hm Hk w. unfold mbind, M_bind. specialize (Hm w).
  destruct (m w) as [[a|e] w1]; cbn [snd] in *; [|exact Hm].
  now rewrite (Hk a w1).
Qed.

Lemma untouched_at_bind {X A B} (f : world -> X) (m : M A) (k : A -> M B) w :
  untouched_at f m w -> (forall a, untouched f (k a)) -> untouched_at f (m ≫= k) w.
Proof.
  unfold untouched_at. intros Hm Hk. unfold mbind, M_bind.
  destruct (m w) as [[a|e] w1]; cbn [snd] in *; [|exact Hm].
  now rewrite (Hk a w1).
Qed.

Lemma untouched_try_except {X A} (f : world -> X) (m : M A) (h : exn -> M A) :
  untouched f m -> (forall e, untouched f (h e)) -> untouched f (try_except m h).
Proof.
  intros Hm Hh w. unfold try_except. specialize (Hm w).
  destruct (m w) as [[a|e] w1]; cbn [snd] in *; [exact Hm|].
  now rewrite (Hh e w1).
Qed.

Lemma untouched_try_finally {X A} (f : world -> X) (m : M A) (final : M unit) :
  untouched f m -> untouched f final -> untouched f (try_finally m final).
Proof.
  intros Hm Hf w. unfold try_finally. specialize (Hm w).
  destruct (m w) as [r w1]. specialize (Hf w1). cbn [snd] in *.
  destruct (final w1) as [[u|e] w2]; cbn [snd] in *; congruence.
Qed.

Lemma untouched_for_each {X A} (f : world -> X) (body : A -> M unit) (l : list A) :
  (forall a, untouched f (body a)) -> untouched f (for_each body l).
Proof.
  intros Hb. induction l as [|a l IH]; cbn [for_each].
  - apply untouched_ret.
  - apply untouched_bind; [apply Hb | intros _; exact IH].
Qed.

Lemma untouched_provider_call {X} (f : world -> X) (fault : string -> exn) :
  (forall o w, f (set_outcomes o w) = f w) -> untouched f (provider_call fault).
Proof.
  intros Hf w. unfold provider_call, answered.
  destruct (head (outcomes w)) as [[msg|]|]; cbn [snd]; apply Hf.
Qed.

(** Splits a computation into its steps and closes the steps that cannot
    touch the part of the world at hand. *)
Ltac frame :=
  repeat match goal with
    | |- untouched _ (mret _) => apply untouched_ret
    | |- untouched _ (lift _) => apply untouched_lift
    | |- untouched _ (raise _) => apply untouched_raise
    | |- untouched _ (gets _) => apply untouched_gets
    | |- untouched _ (provider_call _) =>
        apply untouched_provider_call; intros; reflexivity
    | |- untouched _ (modify _) => apply untouched_modify; intros; reflexivity
    | |- untouched _ (_ ≫= _) => apply untouched_bind; [|intros]
    | |- untouched _ (try_except _ _) => apply untouched_try_except; [|intros]
    | |- untouched _ (try_finally _ _) => apply untouched_try_finally
    | |- untouched _ (for_each _ _) => apply untouched_for_each; intros
    | |- untouched _ (if ?b then _ else _) => destruct b
    end.

Lemma table_scan_backends : untouched backends table_scan.
Proof. unfold table_scan. frame. Qed.

Lemma table_get_item_backends v : untouched backends (table_get_item v).
Proof. unfold table_get_item. frame. destruct v; frame. Qed.

Lemma table_put_item_backends v : untouched backends (table_put_item v).
Proof.
  unfold table_put_item. destruct v; frame.
  destruct (dict_get d "product_id") as [[]|]; frame.
Qed.

Lemma table_update_item_backends v n p s : untouched backends (table_update_item v n p s).
Proof. unfold table_update_item. frame. destruct v; frame. Qed.

Lemma table_delete_item_backends v : untouched backends (table_delete_item v).
Proof. unfold table_delete_item. frame. destruct v; frame. Qed.

Lemma table_scan_table : untouched table table_scan.
Proof. unfold table_scan. frame. Qed.

Lemma table_get_item_table v : untouched table (table_get_item v).
Proof. unfold table_get_item. frame. destruct v; frame. Qed.

Lemma get_ssm_parameter_table name : untouched table (get_ssm_parameter name).
Proof. unfold get_ssm_parameter, ssm_get_parameter. frame. destruct (_ !! _); frame. Qed.

Lemma get_db_credentials_table : untouched table get_db_credentials.
Proof.
  unfold get_db_credentials. frame; apply get_ssm_parameter_table.
Qed.

Lemma cursor_execute_untouched {X} (f : world -> X) sql args :
  (forall o w, f (set_outcomes o w) = f w) ->
  (forall l w, f (set_rds_calls l w) = f w) ->
  (forall n w, f (set_rds_autoincrement n w) = f w) ->
  untouched f (cursor_execute sql args).
Proof.
  intros Ho Hc Hn. unfold cursor_execute.
  apply untouched_bind; [now apply untouched_provider_call|intros _].
  apply untouched_bind; [apply untouched_gets|intros n].
  apply untouched_bind; [|intros _; apply untouched_ret].
  apply untouched_modify. intros w. now rewrite Hn, Hc.
Qed.

Lemma place_order_untouched {X} (f : world -> X) user_id total items :
  (forall o w, f (set_outcomes o w) = f w) ->
  (forall l w, f (set_rds_calls l w) = f w) ->
  (forall n w, f (set_rds_autoincrement n w) = f w) ->
  untouched f (place_order user_id total items).
Proof.
  intros Ho Hc Hn. unfold place_order.
  apply untouched_bind; [now apply cursor_execute_untouched|intros order_id].
  apply untouched_bind; [apply untouched_lift|intros lines].
  apply untouched_bind.
  - apply untouched_for_each. intros item. unfold insert_item.
    do 3 (apply untouched_bind; [apply untouched_lift|intros ?]).
    apply untouched_bind; [now apply cursor_execute_untouched | intros; apply untouched_ret].
  - intros _. apply untouched_bind; [|intros; apply untouched_ret].
    unfold conn_commit.
    apply untouched_bind; [now apply untouched_provider_call|intros _].
    apply untouched_modify. intros w. apply Hc.
Qed.

Lemma pymysql_connect_untouched {X} (f : world -> X) user password :
  (forall o w, f (set_outcomes o w) = f w) ->
  (forall l w, f (set_rds_calls l w) = f w) ->
  untouched f (pymysql_connect user password).
Proof.
  intros Ho Hc. unfold pymysql_connect.
  apply untouched_bind; [now apply untouched_provider_call|intros _].
  apply untouched_modify. intros w. apply Hc.
Qed.

Lemma conn_close_untouched {X} (f : world -> X) :
  (forall l w, f (set_rds_calls l w) = f w) -> untouched f conn_close.
Proof. intros Hc. apply untouched_modify. intros w. apply Hc. Qed.

Section Isolation.

Context {lib : PyLib}.

(** X1. [get_product] and [list_products] only read: whatever the request,
    whatever the provider answers, and whether they return 200, 404 or 500,
    the table is afterwards what it was. *)
Theorem reads_leave_the_table (event : dict) (w : world) :
  table (snd (get_product event w)) = table w
  /\ table (snd (list_products event w)) = table w.
Proof.
  split.
  - enough (Hu : untouched table (get_product event)) by apply Hu.
    unfold get_product, get_product_try. frame. apply table_get_item_table.
  - enough (Hu : untouched table (list_products event)) by apply Hu.
    unfold list_products, list_products_try. frame. apply table_scan_table.
Qed.

(** X2. The five product handlers never reach the credentials or the
    relational store: on every request and every outcome, the cached
    credentials, the list of SSM calls, the calls made on the relational
    connection and its row counter are afterwards what they were. *)
Theorem products_leave_the_backends (event : dict) (w : world) :
  backends (snd (list_products event w)) = backends w
  /\ backends (snd (get_product event w)) = backends w
  /\ backends (snd (create_product event w)) = backends w
  /\ backends (snd (update_product event w)) = backends w
  /\ backends (snd (delete_product event w)) = backends w.
Proof.
  repeat split.
  - enough (Hu : untouched backends (list_products event)) by apply Hu.
    unfold list_products, list_products_try. frame. apply table_scan_backends.
  - enough (Hu : untouched backends (get_product event)) by apply Hu.
    unfold get_product, get_product_try. frame. apply table_get_item_backends.
  - enough (Hu : untouched backends (create_product event)) by apply Hu.
    unfold create_product, create_product_try. frame. apply table_put_item_backends.
  - enough (Hu : untouched backends (update_product event)) by apply Hu.
    unfold update_product, except_with_product_id.
    destruct (path_parameter_id event); [|frame].
    unfold update_product_try. frame. apply table_update_item_backends.
  - enough (Hu : untouched backends (delete_product event)) by apply Hu.
    unfold delete_product, except_with_product_id.
    destruct (path_parameter_id event); [|frame].
    unfold delete_product_try. frame. apply table_delete_item_backends.
Qed.

(** X3. [checkout] never touches the product table: on every request and
    every outcome the table is afterwards what it was. The catalog is not
    consulted, and no stock is taken from it. *)
Theorem checkout_leaves_the_table (event : dict) (w : world) :
  table (snd (checkout event w)) = table w.
Proof.
  enough (Hu : untouched table (checkout event)) by apply Hu.
  unfold checkout, checkout_try. frame.
  - unfold get_rds_connection. frame; [apply get_db_credentials_table|].
    now apply pymysql_connect_untouched.
  - now apply place_order_untouched.
  - now apply conn_close_untouched.
Qed.

End Isolation.

(** ** Checkout: what is checked first, and the connection *)

Lemma untouched_at_try_except {X A} (f : world -> X) (m : M A) (h : exn -> M A) w :
  untouched_at f m w -> (forall e, untouched f (h e)) -> untouched_at f (try_except m h) w.
Proof.
  unfold untouched_at, try_except. intros Hm Hh.
  destruct (m w) as [[a|e] w1]; cbn [snd] in *; [exact Hm|].
  now rewrite (Hh e w1).
Qed.

Lemma untouched_at_bind_lift {X A B} (f : world -> X) (r : result A) (k : A -> M B) w :
  (forall a, untouched_at f (k a) w) -> untouched_at f (lift r ≫= k) w.
Proof.
  intros Hk. destruct r as [a|e]; [apply Hk | reflexivity].
Qed.

Lemma cursor_execute_log sql args w r w' :
  cursor_execute sql args w = (r, w') ->
  rds_calls w'
  = (rds_calls w ++ match r with Ok _ => [RdsExecute sql args] | Raise _ => [] end)%list.
Proof.
  unfold cursor_execute, provider_call, mbind, M_bind, gets, modify, mret, M_ret.
  destruct (head (outcomes w)) as [[msg|]|]; intros E; inversion E; cbn;
    now rewrite ?app_nil_r.
Qed.

Lemma conn_commit_log w r w' :
  conn_commit w = (r, w') ->
  rds_calls w' = (rds_calls w ++ match r with Ok _ => [RdsCommit] | Raise _ => [] end)%list.
Proof.
  unfold conn_commit, provider_call, mbind, M_bind, modify.
  destruct (head (outcomes w)) as [[msg|]|]; intros E; inversion E; cbn;
    now rewrite ?app_nil_r.
Qed.

Lemma pymysql_connect_log user password w r w' :
  pymysql_connect user password w = (r, w') ->
  rds_calls w'
  = (rds_calls w ++ match r with Ok _ => [RdsConnect user password] | Raise _ => [] end)%list.
Proof.
  unfold pymysql_connect, provider_call, mbind, M_bind, modify.
  destruct (head (outcomes w)) as [[msg|]|]; intros E; inversion E; cbn;
    now rewrite ?app_nil_r.
Qed.

Lemma insert_item_log order_id item w r w' :
  insert_item order_id item w = (r, w') ->
  exists execs, forallb is_execute execs = true
                /\ rds_calls w' = (rds_calls w ++ execs)%list.
Proof.
  unfold insert_item.
  destruct (py_getitem item "product_id") as [product_id|e1];
    [rewrite bind_lift_ok | intros E; inversion E; exists []; now rewrite app_nil_r].
  destruct (py_getitem item "quantity") as [quantity|e2];
    [rewrite bind_lift_ok | intros E; inversion E; exists []; now rewrite app_nil_r].
  destruct (py_getitem item "price") as [price|e3];
    [rewrite bind_lift_ok | intros E; inversion E; exists []; now rewrite app_nil_r].
  unfold mbind, M_bind.
  destruct (cursor_execute _ _ w) as [[n|e] w1] eqn:Hx; intros E; inversion E; subst;
    rewrite (cursor_execute_log _ _ _ _ _ Hx).
  - exists [RdsExecute insert_order_item [VInt order_id; product_id; quantity; price]].
    split; reflexivity.
  - exists []. split; reflexivity.
Qed.

Lemma insert_items_log order_id lines :
  forall w r w',
    for_each (insert_item order_id) lines w = (r, w') ->
    exists execs, forallb is_execute execs = true
                  /\ rds_calls w' = (rds_calls w ++ execs)%list.
Proof.
  induction lines as [|item lines IH]; intros w r w'; cbn [for_each].
  - intros E. inversion E. exists []. now rewrite app_nil_r.
  - unfold mbind, M_bind.
    destruct (insert_item order_id item w) as [[u|e] w1] eqn:Hitem.
    + intros Hrest. destruct (insert_item_log _ _ _ _ _ Hitem) as (x1 & Hx1 & Hc1).
      destruct (IH _ _ _ Hrest) as (x2 & Hx2 & Hc2).
      exists (x1 ++ x2)%list. split.
      * rewrite forallb_app. now rewrite Hx1, Hx2.
      * now rewrite Hc2, Hc1, <- app_assoc.
    + intros E. inversion E; subst. exact (insert_item_log _ _ _ _ _ Hitem).
Qed.

Lemma place_order_log user_id total items w r w' :
  place_order user_id total items w = (r, w') ->
  exists execs, forallb is_execute execs = true
    /\ rds_calls w'
       = (rds_calls w ++ execs ++ match r with Ok _ => [RdsCommit] | Raise _ => [] end)%list.
Proof.
  unfold place_order. unfold mbind at 1, M_bind.
  destruct (cursor_execute _ _ w) as [[order_id|e] w1] eqn:Hx.
  2: { intros E. inversion E; subst. exists [].
       now rewrite (cursor_execute_log _ _ _ _ _ Hx). }
  pose proof (cursor_execute_log _ _ _ _ _ Hx) as Hc1. cbn iota in Hc1.
  destruct (py_iter items) as [lines|e].
  2: { intros E. inversion E; subst. exists [RdsExecute insert_order [user_id; total]].
       split; [reflexivity|]. now rewrite Hc1, app_nil_r. }
  rewrite bind_lift_ok. unfold mbind at 1, M_bind.
  destruct (for_each _ lines w1) as [[u|e] w2] eqn:Hloop.
  2: { intros E. inversion E; subst.
       destruct (insert_items_log _ _ _ _ _ Hloop) as (x & Hx' & Hc2).
       exists (RdsExecute insert_order [user_id; total] :: x). split; [exact Hx'|].
       rewrite Hc2, Hc1, app_nil_r, <- app_assoc. reflexivity. }
  destruct (insert_items_log _ _ _ _ _ Hloop) as (x & Hx' & Hc2).
  unfold mbind, M_bind.
  destruct (conn_commit w2) as [[u'|e] w3] eqn:Hcommit; intros E; inversion E; subst;
    pose proof (conn_commit_log _ _ _ Hcommit) as Hc3; cbn iota in Hc3;
    exists (RdsExecute insert_order [user_id; total] :: x); (split; [exact Hx'|]);
    rewrite Hc3, Hc2, Hc1, <- !app_assoc; reflexivity.
Qed.

Lemma get_rds_connection_log w r w' :
  get_rds_connection w = (r, w') ->
  match r with
  | Ok _ => exists user password,
              rds_calls w' = (rds_calls w ++ [RdsConnect user password])%list
  | Raise _ => rds_calls w' = rds_calls w
  end.
Proof.
  unfold get_rds_connection, try_except. unfold mbind, M_bind.
  destruct (get_db_credentials w) as [[[user password]|e] w0] eqn:Hcreds;
    destruct (get_db_credentials_frame _ _ _ Hcreds) as (Hc0 & _ & _).
  - cbn [fst snd].
    destruct (pymysql_connect user password w0) as [[u|e] w1] eqn:Hconn;
      pose proof (pymysql_connect_log _ _ _ _ _ Hconn) as Hc1; cbn iota in Hc1;
      intros E; inversion E; subst.
    + exists user, password. now rewrite Hc1, Hc0.
    + now rewrite Hc1, app_nil_r.
  - intros E. inversion E; subst. exact Hc0.
Qed.

Section CheckoutOrder.

Context {lib : PyLib}.

Lemma checkout_try_log event w r w' :
  checkout_try event w = (r, w') ->
  exists l,
    rds_calls w' = (rds_calls w ++ l)%list
    /\ match r with
       | Ok resp =>
           statusCode resp = 200
           /\ exists user password execs,
                forallb is_execute execs = true
                /\ l = (RdsConnect user password :: execs ++ [RdsCommit; RdsClose])%list
       | Raise _ =>
           l = []
           \/ exists user password execs,
                forallb is_execute execs = true
                /\ l = (RdsConnect user password :: execs ++ [RdsClose])%list
       end.
Proof.
  assert (Hnone : forall (e : exn) w1,
            (Raise e, w) = (r, w1) ->
            exists l, rds_calls w1 = (rds_calls w ++ l)%list
              /\ match r with
                 | Ok resp =>
                     statusCode resp = 200
                     /\ exists user password execs,
                          forallb is_execute execs = true
                          /\ l = (RdsConnect user password :: execs
                                  ++ [RdsCommit; RdsClose])%list
                 | Raise _ =>
                     l = []
                     \/ exists user password execs,
                          forallb is_execute execs = true
                          /\ l = (RdsConnect user password :: execs ++ [RdsClose])%list
                 end).
  { intros e w1 E. inversion E; subst. exists []. rewrite app_nil_r. auto. }
  unfold checkout_try.
  destruct (py_json_loads _) as [body|e]; [rewrite bind_lift_ok | apply Hnone].
  destruct (py_getitem body "user_id") as [user_id|e]; [rewrite bind_lift_ok | apply Hnone].
  destruct (py_getitem body "items") as [items|e]; [rewrite bind_lift_ok | apply Hnone].
  destruct (py_iter items) as [lines|e]; [rewrite bind_lift_ok | apply Hnone].
  destruct (comprehension line_amount lines) as [amounts|e];
    [rewrite bind_lift_ok | apply Hnone].
  destruct (py_sum amounts) as [total|e]; [rewrite bind_lift_ok | apply Hnone].
  clear Hnone. unfold mbind at 1, M_bind.
  destruct (get_rds_connection w) as [[u|e] w1] eqn:Hconn;
    pose proof (get_rds_connection_log _ _ _ Hconn) as Hc1; cbn iota in Hc1.
  2: { intros E. inversion E; subst. exists []. rewrite app_nil_r. auto. }
  destruct Hc1 as (user & password & Hc1).
  unfold mbind, M_bind, try_finally.
  destruct (place_order user_id total items w1) as [ro w2] eqn:Hplace.
  destruct (place_order_log _ _ _ _ _ _ Hplace) as (execs & Hexecs & Hc2).
  cbn [conn_close modify].
  destruct ro as [order_id|e]; intros E; inversion E; subst; cbn [rds_calls set_rds_calls].
  - exists (RdsConnect user password :: execs ++ [RdsCommit; RdsClose])%list. split.
    + rewrite Hc2, Hc1, <- ?app_assoc. reflexivity.
    + split; [reflexivity|]. exists user, password, execs. auto.
  - exists (RdsConnect user password :: execs ++ [RdsClose])%list. split.
    + rewrite Hc2, Hc1, app_nil_r, <- ?app_assoc. reflexivity.
    + right. exists user, password, execs. auto.
Qed.

(** X4. On every request and every outcome, [checkout] answers with a
    response, and what it did on the relational connection is one of three
    things: nothing at all (500); or a connect, some inserts, the commit and the
    close (200); or a connect, some inserts and the close, without a commit
    (500). A connection that was opened is always closed, a failed checkout
    never commits, and a checkout that answers 200 has committed. *)
Theorem checkout_closes_what_it_opens (event : dict) (w : world) :
  exists r w' l,
    checkout event w = (Ok r, w')
    /\ rds_calls w' = (rds_calls w ++ l)%list
    /\ (l = [] /\ statusCode r = 500
        \/ exists user password execs,
             forallb is_execute execs = true
             /\ (l = (RdsConnect user password :: execs ++ [RdsCommit; RdsClose])%list
                 /\ statusCode r = 200
                 \/ l = (RdsConnect user password :: execs ++ [RdsClose])%list
                    /\ statusCode r = 500)).
Proof.
  unfold checkout, try_except.
  destruct (checkout_try event w) as [[r|e] w'] eqn:Htry;
    destruct (checkout_try_log _ _ _ _ Htry) as (l & Hl & Hshape).
  - destruct Hshape as (Hs & user & password & execs & Hx & ->).
    exists r, w', (RdsConnect user password :: execs ++ [RdsCommit; RdsClose])%list.
    split; [reflexivity|]. split; [exact Hl|]. right. exists user, password, execs. auto.
  - exists (Response 500 (error_body "Checkout failed" e)), w', l.
    split; [reflexivity|]. split; [exact Hl|].
    destruct Hshape as [->|(user & password & execs & Hx & ->)]; [left; auto|].
    right. exists user, password, execs. auto.
Qed.

(** X5. A cart is checked before anything else is done. When the body has no
    [user_id], or no [items], or an item whose amount cannot be computed (a
    missing [price] or [quantity], operands that do not multiply), or amounts
    that do not add up, [checkout] answers 500 with the text of that failure
    and the world is exactly what it was: no secret is fetched, no connection
    is opened, nothing is inserted. *)
Theorem checkout_rejects_before_connecting (event : dict) (body : value) (w : world) :
  py_json_loads (event_get event "body" (VStr "{}")) = Ok body ->
  (forall e, py_getitem body "user_id" = Raise e ->
     checkout event w = (Ok (Response 500 (error_body "Checkout failed" e)), w))
  /\ (forall user_id e,
        py_getitem body "user_id" = Ok user_id ->
        py_getitem body "items" = Raise e ->
        checkout event w = (Ok (Response 500 (error_body "Checkout failed" e)), w))
  /\ (forall user_id items lines e,
        py_getitem body "user_id" = Ok user_id ->
        py_getitem body "items" = Ok items ->
        py_iter items = Ok lines ->
        comprehension line_amount lines = Raise e ->
        checkout event w = (Ok (Response 500 (error_body "Checkout failed" e)), w))
  /\ (forall user_id items lines amounts e,
        py_getitem body "user_id" = Ok user_id ->
        py_getitem body "items" = Ok items ->
        py_iter items = Ok lines ->
        comprehension line_amount lines = Ok amounts ->
        py_sum amounts = Raise e ->
        checkout event w = (Ok (Response 500 (error_body "Checkout failed" e)), w)).
Proof.
  intros Hbody. repeat split.
  - intros e E1. unfold checkout, try_except, checkout_try.
    now rewrite Hbody, bind_lift_ok, E1.
  - intros user_id e E1 E2. unfold checkout, try_except, checkout_try.
    now rewrite Hbody, bind_lift_ok, E1, bind_lift_ok, E2.
  - intros user_id items lines e E1 E2 E3 E4. unfold checkout, try_except, checkout_try.
    now rewrite Hbody, bind_lift_ok, E1, bind_lift_ok, E2, bind_lift_ok, E3, bind_lift_ok, E4.
  - intros user_id items lines amounts e E1 E2 E3 E4 E5.
    unfold checkout, try_except, checkout_try.
    now rewrite Hbody, bind_lift_ok, E1, bind_lift_ok, E2, bind_lift_ok, E3, bind_lift_ok,
      E4, bind_lift_ok, E5.
Qed.

(** X6. With both credentials cached, a checkout never calls SSM, whatever
    the request and whatever happens on the connection; the cached pair is
    afterwards what it was. *)
Theorem warm_checkout_skips_ssm (event : dict) (w : world) :
  truthy (cached_rds_user w) = true ->
  truthy (cached_rds_password w) = true ->
  ssm_calls (snd (checkout event w)) = ssm_calls w
  /\ cached_rds_user (snd (checkout event w)) = cached_rds_user w
  /\ cached_rds_password (snd (checkout event w)) = cached_rds_password w.
Proof.
  intros Hu Hp.
  set (f := fun w => (ssm_calls w, cached_rds_user w, cached_rds_password w)).
  enough (Hf : untouched_at f (checkout event) w).
  { unfold untouched_at, f in Hf. inversion Hf. auto. }
  unfold checkout. apply untouched_at_try_except; [|intros e; apply untouched_ret].
  unfold checkout_try.
  do 6 (apply untouched_at_bind_lift; intros ?).
  apply untouched_at_bind.
  - unfold untouched_at, get_rds_connection, try_except.
    rewrite (bind_ok _ _ _ _ _ (get_db_credentials_cached w Hu Hp)). cbn [fst snd].
    pose proof (pymysql_connect_untouched f (cached_rds_user w) (cached_rds_password w)
                  (fun _ _ => eq_refl) (fun _ _ => eq_refl) w) as Hc.
    destruct (pymysql_connect _ _ w) as [[u|e] w1]; exact Hc.
  - intros _. apply untouched_bind; [|intros; apply untouched_ret].
    apply untouched_try_finally.
    + now apply place_order_untouched.
    + now apply conn_close_untouched.
Qed.

End CheckoutOrder.

(** A cart without [user_id], and a cart with an item that has no [price]. *)
Lemma checkout_rejects_example :
  checkout (lib := example_lib) anonymous_cart fresh_world
  = (Ok (Response 500 (error_body "Checkout failed" (KeyError "user_id"))), fresh_world)
  /\ checkout (lib := example_lib) priceless_cart fresh_world
     = (Ok (Response 500 (error_body "Checkout failed" (KeyError "price"))), fresh_world).
Proof.
  split.
  - apply (proj1 (checkout_rejects_before_connecting (lib := example_lib) anonymous_cart
                    (VDict [("items", VList [])]) fresh_world
                    ltac:(vm_compute; reflexivity))).
    vm_compute; reflexivity.
  - apply (proj1 (proj2 (proj2
             (checkout_rejects_before_connecting (lib := example_lib) priceless_cart
                (VDict [("user_id", VStr "u1");
                        ("items", VList [VDict [("product_id", VStr "p1");
                                                ("quantity", VInt 1)]])])
                fresh_world ltac:(vm_compute; reflexivity))))
           (VStr "u1")
           (VList [VDict [("product_id", VStr "p1"); ("quantity", VInt 1)]])
           [VDict [("product_id", VStr "p1"); ("quantity", VInt 1)]]);
      vm_compute; reflexivity.
Defined.

Lemma warm_checkout_example :
  ssm_calls (snd (checkout (lib := example_lib) whole_cart warm_world)) = ssm_calls warm_world
  /\ cached_rds_user (snd (checkout (lib := example_lib) whole_cart warm_world))
     = cached_rds_user warm_world
  /\ cached_rds_password (snd (checkout (lib := example_lib) whole_cart warm_world))
     = cached_rds_password warm_world.
Proof.
  apply (warm_checkout_skips_ssm (lib := example_lib) whole_cart warm_world); reflexivity.
Defined.

(** ** Credentials when SSM fails *)

Lemma get_ssm_parameter_faults name msg w :
  faults_with msg w ->
  get_ssm_parameter name w
  = (Raise (ClientError msg), answered (set_ssm_calls (ssm_calls w ++ [name]) w)).
Proof.
  intros Hf. unfold get_ssm_parameter, ssm_get_parameter.
  erewrite bind_raise; [reflexivity|].
  erewrite bind_ok by reflexivity.
  erewrite bind_raise; [reflexivity|].
  apply provider_call_faults. exact Hf.
Qed.

(** X7. What was fetched stays fetched. In a process that has cached
    nothing, when SSM answers for the user name and faults for the password,
    [get_db_credentials] raises that fault, the user name is cached and the
    password is not; the next call, if SSM answers, fetches the password only
    and returns the pair. *)
Theorem password_fault_keeps_user_name (w : world) (user password msg : string)
    (rest : list (option string)) :
  cached_rds_user w = VNone ->
  cached_rds_password w = VNone ->
  ssm_parameters w !! "/ubuntucrafts/db_username" = Some user ->
  ssm_parameters w !! "/ubuntucrafts/db_password" = Some password ->
  truthy (VStr user) = true ->
  truthy (VStr password) = true ->
  outcomes w = None :: Some msg :: rest ->
  no_fault 1 rest = true ->
  exists w1 w2,
    get_db_credentials w = (Raise (ClientError msg), w1)
    /\ cached_rds_user w1 = VStr user
    /\ cached_rds_password w1 = VNone
    /\ get_db_credentials w1 = (Ok (VStr user, VStr password), w2)
    /\ ssm_calls w2
       = (ssm_calls w ++ ["/ubuntucrafts/db_username"; "/ubuntucrafts/db_password";
                          "/ubuntucrafts/db_password"])%list.
Proof.
  intros Hcu Hcp Hu Hp Htu Htp Ho Hrest.
  assert (Ha : answers w = true) by (unfold answers; now rewrite Ho).
  set (wu := set_cached_rds_user (VStr user)
               (answered (set_ssm_calls (ssm_calls w ++ ["/ubuntucrafts/db_username"]) w))).
  assert (Hf : faults_with msg wu).
  { unfold faults_with, wu. cbn. now rewrite Ho. }
  set (w1 := answered (set_ssm_calls (ssm_calls wu ++ ["/ubuntucrafts/db_password"]) wu)).
  assert (Ha1 : answers w1 = true).
  { unfold answers, w1, wu. cbn. rewrite Ho. cbn.
    destruct rest as [|[m|] rest']; [reflexivity | discriminate | reflexivity]. }
  set (w2 := set_cached_rds_password (VStr password)
               (answered (set_ssm_calls (ssm_calls w1 ++ ["/ubuntucrafts/db_password"]) w1))).
  exists w1, w2.
  assert (H1 : get_db_credentials w = (Raise (ClientError msg), w1)).
  { unfold get_db_credentials. unfold mbind at 1 2, M_bind, gets.
    rewrite Hcu. cbn [truthy negb].
    unfold mbind at 1 2, M_bind.
    rewrite (get_ssm_parameter_answers _ _ _ Ha Hu). unfold modify. fold wu.
    unfold mbind at 1 2, M_bind.
    replace (cached_rds_password wu) with VNone by (symmetry; exact Hcp).
    cbn [truthy negb]. unfold mbind at 1 2, M_bind.
    rewrite (get_ssm_parameter_faults "/ubuntucrafts/db_password" msg wu Hf).
    reflexivity. }
  assert (H2 : get_db_credentials w1 = (Ok (VStr user, VStr password), w2)).
  { unfold get_db_credentials. unfold mbind at 1 2, M_bind, gets.
    replace (cached_rds_user w1) with (VStr user) by reflexivity.
    rewrite Htu. cbn [negb]. unfold mbind at 1 2, M_bind, mret, M_ret.
    replace (cached_rds_password w1) with VNone by (symmetry; exact Hcp).
    cbn [truthy negb]. unfold mbind at 1 2, M_bind.
    rewrite (get_ssm_parameter_answers "/ubuntucrafts/db_password" password w1);
      [| exact Ha1 | exact Hp].
    reflexivity. }
  repeat split; trivial.
  subst w2 w1 wu. cbn. now rewrite <- !app_assoc.
Qed.

Lemma password_fault_example :
  exists w1 w2,
    get_db_credentials flaky_ssm_world = (Raise (ClientError "Throttled"), w1)
    /\ cached_rds_user w1 = VStr "admin"
    /\ cached_rds_password w1 = VNone
    /\ get_db_credentials w1 = (Ok (VStr "admin", VStr "secret"), w2)
    /\ ssm_calls w2
       = (ssm_calls flaky_ssm_world
          ++ ["/ubuntucrafts/db_username"; "/ubuntucrafts/db_password";
              "/ubuntucrafts/db_password"])%list.
Proof.
  apply (password_fault_keeps_user_name flaky_ssm_world "admin" "secret" "Throttled" []);
    reflexivity.
Defined.

(** ** When the router answers, and when it raises *)

Lemma try_except_returns {A} (m : M A) (g : exn -> A) w :
  exists r w', try_except m (fun e => mret (g e)) w = (Ok r, w').
Proof.
  unfold try_except. destruct (m w) as [[a|e] w']; eauto.
Qed.

Section Answers.

Context {lib : PyLib}.

(** X8. [lambda_handler] answers with a response, whatever the providers do,
    as soon as the path is a string and, for a PUT or a DELETE on an item
    path, [event['pathParameters']['id']] can be read. *)
Theorem lambda_handler_answers (event : dict) (path : string) (w : world) :
  event_get event "path" (VStr EmptyString) = VStr path ->
  implb (needs_id path (event_get event "httpMethod" (VStr EmptyString)))
        (returns (path_parameter_id event)) = true ->
  exists r w', lambda_handler event w = (Ok r, w').
Proof.
  intros Hp Hid. unfold lambda_handler. rewrite Hp. cbn [py_startswith eq_str].
  set (method := event_get event "httpMethod" (VStr EmptyString)) in *.
  unfold needs_id in Hid.
  destruct (_ && eq_str method "GET"); [apply try_except_returns|].
  rewrite bind_lift_ok; cbv beta.
  destruct (_ && eq_str method "GET"); [apply try_except_returns|].
  destruct (_ && eq_str method "POST"); [apply try_except_returns|].
  rewrite bind_lift_ok; cbv beta.
  destruct (String.prefix "/products/" path); cbn [andb] in *.
  - destruct (eq_str method "PUT"); cbn [orb implb] in Hid.
    + unfold update_product.
      destruct (path_parameter_id event) as [product_id|e]; [|discriminate].
      apply try_except_returns.
    + rewrite bind_lift_ok; cbv beta. cbn [andb].
      destruct (eq_str method "DELETE"); cbn [implb] in Hid.
      * unfold delete_product.
        destruct (path_parameter_id event) as [product_id|e]; [|discriminate].
        apply try_except_returns.
      * destruct (_ && eq_str method "POST"); [apply try_except_returns|].
        eexists; eexists; reflexivity.
  - rewrite bind_lift_ok; cbv beta. cbn [andb].
    destruct (_ && eq_str method "POST"); [apply try_except_returns|].
    eexists; eexists; reflexivity.
Qed.

(** X9. A request whose [path] is present and is not a string (null, a
    number, a list) is not answered: [lambda_handler] raises the
    [AttributeError] of [path.startswith], whatever the method, and leaves the
    world as it is. *)
Theorem non_string_path_raises (event : dict) (path : value) (w : world) :
  event_get event "path" (VStr EmptyString) = path ->
  is_str path = false ->
  lambda_handler event w
  = (Raise (AttributeError ("'" +:+ type_name path
                            +:+ "' object has no attribute 'startswith'")), w).
Proof.
  intros Hp Hs. unfold lambda_handler. rewrite Hp.
  destruct path; try discriminate; reflexivity.
Qed.

End Answers.

Lemma lambda_handler_answers_example :
  exists r w', lambda_handler (lib := example_lib) rename_request (faulty_world "Throttled")
               = (Ok r, w').
Proof.
  apply (lambda_handler_answers (lib := example_lib) rename_request "/products/p1"
           (faulty_world "Throttled")); reflexivity.
Defined.

Lemma non_string_path_example :
  lambda_handler (lib := example_lib) null_path fresh_world
  = (Raise (AttributeError "'NoneType' object has no attribute 'startswith'"), fresh_world).
Proof.
  apply (non_string_path_raises (lib := example_lib) null_path VNone fresh_world); reflexivity.
Defined.

(** ** Deleting, creating, updating and reading products *)

Lemma table_delete_item_answers k w :
  answers w = true ->
  table_delete_item (VStr k) w = (Ok tt, set_table (delete k (table w)) (answered w)).
Proof.
  intros Ha. unfold table_delete_item.
  rewrite (bind_ok _ _ _ _ _ (provider_call_answers _ _ Ha)). reflexivity.
Qed.

Lemma delete_product_answers event key w :
  path_parameter_id event = Ok (VStr key) ->
  answers w = true ->
  delete_product event w
  = (Ok (Response 200 (message_body "Product deleted successfully")),
     set_table (delete key (table w)) (answered w)).
Proof.
  intros Hid Ha. unfold delete_product. rewrite Hid. apply try_except_ok.
  unfold delete_product_try.
  rewrite (bind_ok _ _ _ _ _ (table_delete_item_answers _ _ Ha)). reflexivity.
Qed.

(** X10. When the provider answers, [delete_product] answers 200 whether or
    not the id is in the table; afterwards the id is not in the table and every
    other item is as it was. Deleting again answers 200 again and changes
    nothing more. *)
Theorem delete_removes_and_repeats (event : dict) (key : string) (w : world) :
  path_parameter_id event = Ok (VStr key) ->
  quiet 2 w = true ->
  exists w1 w2,
    delete_product event w
    = (Ok (Response 200 (VDict [("message", VStr "Product deleted successfully")])), w1)
    /\ table w1 !! key = None
    /\ (forall other, other <> key -> table w1 !! other = table w !! other)
    /\ delete_product event w1
       = (Ok (Response 200 (VDict [("message", VStr "Product deleted successfully")])), w2)
    /\ table w2 = table w1.
Proof.
  intros Hid Hq.
  apply quiet_S in Hq. destruct Hq as [Ha Hq].
  apply quiet_S in Hq. destruct Hq as [Ha1 _].
  eexists. eexists. split; [apply (delete_product_answers _ _ _ Hid Ha)|].
  cbn [table set_table]. split; [apply lookup_delete_eq|].
  split; [intros other Hne; now apply lookup_delete_ne|].
  split; [apply (delete_product_answers event key); [exact Hid | exact Ha1]|].
  cbn [table set_table answered]. apply delete_delete_eq.
Qed.

Lemma delete_example :
  exists w1 w2,
    delete_product delete_widget stocked_world
    = (Ok (Response 200 (VDict [("message", VStr "Product deleted successfully")])), w1)
    /\ table w1 !! "p1" = None
    /\ (forall other, other <> "p1" -> table w1 !! other = table stocked_world !! other)
    /\ delete_product delete_widget w1
       = (Ok (Response 200 (VDict [("message", VStr "Product deleted successfully")])), w2)
    /\ table w2 = table w1.
Proof.
  apply (delete_removes_and_repeats delete_widget "p1" stocked_world); reflexivity.
Defined.

(** X11. A product that was deleted is not found: after a delete that
    answered, a [get_product] for the same id, answered by the provider,
    returns 404. *)
Theorem get_after_delete_is_404 (delete_event get_event : dict) (key : string)
    (w : world) :
  path_parameter_id delete_event = Ok (VStr key) ->
  path_parameter_id get_event = Ok (VStr key) ->
  quiet 2 w = true ->
  get_product get_event (snd (delete_product delete_event w))
  = (Ok (Response 404 (VDict [("error", VStr "Product not found")])),
     answered (snd (delete_product delete_event w))).
Proof.
  intros Hd Hg Hq.
  apply quiet_S in Hq. destruct Hq as [Ha Hq].
  apply quiet_S in Hq. destruct Hq as [Ha1 _].
  rewrite (delete_product_answers _ _ _ Hd Ha). cbn [snd].
  unfold get_product. apply try_except_ok. unfold get_product_try.
  rewrite Hg, bind_lift_ok.
  erewrite bind_ok by (apply table_get_item_answers; exact Ha1).
  cbn [table set_table]. rewrite lookup_delete_eq. reflexivity.
Qed.

Lemma get_after_delete_example :
  get_product get_widget (snd (delete_product delete_widget stocked_world))
  = (Ok (Response 404 (VDict [("error", VStr "Product not found")])),
     answered (snd (delete_product delete_widget stocked_world))).
Proof.
  apply (get_after_delete_is_404 delete_widget get_widget "p1" stocked_world); reflexivity.
Defined.

(** [json.dumps] with [decimal_default] never fails on a value of the table,
    and writes every [Decimal], at any depth, as a float. *)
Lemma json_plain_emitted v : json_plain (emit_all v) = Ok (emit_all v).
Proof.
  induction v as [ |b|z|f|s|d|l IHl|d IHd] using value_nested_ind;
    cbn [emit_all json_plain]; trivial.
  - assert (E : (fix each (l : list value) : result (list value) :=
                   match l with
                   | [] => Ok []
                   | x :: r => y ← json_plain x; r' ← each r; Ok (y :: r')
                   end) (map emit_all l) = Ok (map emit_all l)).
    { induction IHl as [|x l Hx _ IH]; [reflexivity|].
      cbn [map]. rewrite Hx. cbn [mbind result_bind]. now rewrite IH. }
    now rewrite E.
  - assert (E : (fix each (d : dict) : result dict :=
                   match d with
                   | [] => Ok []
                   | (k, x) :: r => y ← json_plain x; r' ← each r; Ok ((k, y) :: r')
                   end) (map (fun kv => (fst kv, emit_all (snd kv))) d)
                = Ok (map (fun kv => (fst kv, emit_all (snd kv))) d)).
    { induction IHd as [|[k x] d Hx _ IH]; [reflexivity|].
      cbn [map fst snd] in *. rewrite Hx. cbn [mbind result_bind]. now rewrite IH. }
    now rewrite E.
Qed.

Lemma json_dumps_decimal_default v :
  json_dumps decimal_default v = Ok (emit_all v).
Proof.
  induction v as [ |b|z|f|s|d|l IHl|d IHd] using value_nested_ind;
    cbn [emit_all json_dumps]; trivial.
  - assert (E : (fix each (l : list value) : result (list value) :=
                   match l with
                   | [] => Ok []
                   | x :: r => y ← json_dumps decimal_default x; r' ← each r; Ok (y :: r')
                   end) l = Ok (map emit_all l)).
    { induction IHl as [|x l Hx _ IH]; [reflexivity|].
      cbn [map]. rewrite Hx. cbn [mbind result_bind]. now rewrite IH. }
    now rewrite E.
  - assert (E : (fix each (d : dict) : result dict :=
                   match d with
                   | [] => Ok []
                   | (k, x) :: r =>
                       y ← json_dumps decimal_default x; r' ← each r; Ok ((k, y) :: r')
                   end) d = Ok (map (fun kv => (fst kv, emit_all (snd kv))) d)).
    { induction IHd as [|[k x] d Hx _ IH]; [reflexivity|].
      cbn [map fst snd] in *. rewrite Hx. cbn [mbind result_bind]. now rewrite IH. }
    now rewrite E.
Qed.

(** X12. Serialization with [decimal_default] is total on the values of the
    model: [json.dumps(v, default=decimal_default)] never raises, writes every
    [Decimal], at any depth of lists and objects, as the float nearest to it,
    and writes everything else as it is. *)
Theorem decimal_default_serializes_everything (v : value) :
  json_dumps decimal_default v = Ok (emit_all v).
Proof. apply json_dumps_decimal_default. Qed.

(** X13. Whatever item the table holds under an id, provided it has some
    attribute, [get_product] answers 200 with that item when the provider
    answers: every attribute, every [Decimal] in it written as a float. *)
Theorem get_product_returns_stored_item (event : dict) (key : string) (item : dict)
    (w : world) :
  path_parameter_id event = Ok (VStr key) ->
  table w !! key = Some item ->
  truthy (VDict item) = true ->
  answers w = true ->
  get_product event w = (Ok (Response 200 (emit_all (VDict item))), answered w).
Proof.
  intros Hid Hitem Ht Ha. unfold get_product. apply try_except_ok.
  unfold get_product_try. rewrite Hid, bind_lift_ok.
  rewrite (bind_ok _ _ _ _ _ (table_get_item_answers key w Ha)). rewrite Hitem.
  cbn [py_get dict_get String.eqb Ascii.eqb Bool.eqb from_option id]. rewrite bind_lift_ok.
  rewrite Ht. cbn [negb]. rewrite json_dumps_decimal_default, bind_lift_ok.
  reflexivity.
Qed.

Lemma get_stored_item_example :
  get_product get_widget stocked_world
  = (Ok (Response 200 (emit_all (VDict widget))), answered stocked_world).
Proof.
  apply (get_product_returns_stored_item get_widget "p1" widget stocked_world);
    reflexivity.
Defined.

Section Writes.

Context {lib : PyLib}.

(** What [coerce_field] does to an object whose attribute is absent or
    convertible. *)
Lemma coerce_field_convertible k payload :
  convertible k payload = true ->
  exists stored,
    coerce_field k (VDict payload) = Ok (VDict stored)
    /\ (forall k', k' <> k -> dict_get stored k' = dict_get payload k')
    /\ coerced k payload stored.
Proof.
  unfold convertible, coerced, coerce_field. cbn [py_contains py_getitem py_setitem].
  destruct (dict_get payload k) as [v|] eqn:Ev.
  - rewrite bool_decide_eq_true_2 by eauto. cbn [mbind result_bind].
    destruct (Decimal_of_str v) as [d|]; [intros _|discriminate]. cbn [mbind result_bind].
    exists (dict_set payload k (VDecimal d)). split; [reflexivity|]. split.
    + intros k' Hne. apply dict_get_set_ne. congruence.
    + exists d. split; [reflexivity | apply dict_get_set_eq].
  - rewrite bool_decide_eq_false_2 by apply is_Some_None. intros _.
    exists payload. split; [reflexivity|]. split; [reflexivity | exact Ev].
Qed.



(** X15. A price or a stock that [Decimal(str(.))] does not take (null, a
    boolean, a list, an object, text that is no number) makes [create_product]
    answer 500 with the text of the conversion error, before the provider is
    called: the world is exactly what it was, nothing is written. *)
Theorem create_rejects_unconvertible (event : dict) (payload : dict) (w : world) :
  py_json_loads (event_get event "body" (VStr "{}")) = Ok (VDict payload) ->
  (forall v e,
     dict_get payload "price" = Some v -> Decimal_of_str v = Raise e ->
     create_product event w
     = (Ok (Response 500 (error_body "Failed to create product" e)), w))
  /\ (forall v e,
        convertible "price" payload = true ->
        dict_get payload "stock" = Some v -> Decimal_of_str v = Raise e ->
        create_product event w
        = (Ok (Response 500 (error_body "Failed to create product" e)), w)).
Proof.
  intros Hbody. split.
  - intros v e Hv He. unfold create_product, try_except, create_product_try.
    rewrite Hbody, bind_lift_ok. unfold coerce_field. cbn [py_contains py_getitem].
    rewrite Hv, bool_decide_eq_true_2 by eauto. cbn [mbind result_bind].
    rewrite He. reflexivity.
  - intros v e Hp Hv He.
    destruct (coerce_field_convertible _ _ Hp) as (d1 & E1 & Ho1 & _).
    unfold create_product, try_except, create_product_try.
    rewrite Hbody, bind_lift_ok, E1, bind_lift_ok.
    unfold coerce_field. cbn [py_contains py_getitem].
    rewrite Ho1, Hv, bool_decide_eq_true_2 by (eauto || discriminate).
    cbn [mbind result_bind]. rewrite He. reflexivity.
Qed.



(** X18. A price or a stock that does not convert makes [update_product]
    answer 500 with the text of the conversion error, before the provider is
    called: the world is exactly what it was, and the stored item keeps its
    name, price and stock. *)
Theorem update_rejects_unconvertible (event : dict) (product_id : value)
    (payload : dict) (w : world) :
  path_parameter_id event = Ok product_id ->
  py_json_loads (event_get event "body" (VStr "{}")) = Ok (VDict payload) ->
  (forall e,
     Decimal_of_str (from_option id (VInt 0) (dict_get payload "price")) = Raise e ->
     update_product event w
     = (Ok (Response 500 (error_body "Failed to update product" e)), w))
  /\ (forall price e,
        Decimal_of_str (from_option id (VInt 0) (dict_get payload "price")) = Ok price ->
        Decimal_of_str (from_option id (VInt 0) (dict_get payload "stock")) = Raise e ->
        update_product event w
        = (Ok (Response 500 (error_body "Failed to update product" e)), w)).
Proof.
  intros Hid Hbody. split.
  - intros e He. unfold update_product. rewrite Hid.
    unfold try_except, update_product_try.
    rewrite Hbody, bind_lift_ok. cbn [py_get]. rewrite bind_lift_ok, He. reflexivity.
  - intros price e Hp He. unfold update_product. rewrite Hid.
    unfold try_except, update_product_try.
    rewrite Hbody, bind_lift_ok. cbn [py_get].
    rewrite bind_lift_ok, Hp, bind_lift_ok, bind_lift_ok, He. reflexivity.
Qed.

End Writes.


Lemma create_rejects_example :
  create_product (lib := example_lib) null_price fresh_world
  = (Ok (Response 500 (error_body "Failed to create product" conversion_syntax)),
     fresh_world).
Proof.
  apply (proj1 (create_rejects_unconvertible (lib := example_lib) null_price
                  [("product_id", VStr "p1"); ("price", VNone)] fresh_world
                  ltac:(vm_compute; reflexivity)) VNone conversion_syntax);
    reflexivity.
Defined.



Lemma update_rejects_example :
  update_product (lib := example_lib) bad_update stocked_world
  = (Ok (Response 500 (error_body "Failed to update product" conversion_syntax)),
     stocked_world).
Proof.
  apply (proj1 (update_rejects_unconvertible (lib := example_lib) bad_update (VStr "p1")
                  [("price", VList [VInt 1])] stocked_world
                  ltac:(vm_compute; reflexivity) ltac:(vm_compute; reflexivity))
           conversion_syntax);
    reflexivity.
Defined.
